(** * Analog versus digital quantum resource estimation

    A shallow embedding of [library/analog_simulator.py],
    [library/digital_resource_estimator.py] and the comparison section of
    [report_generator.py], followed by the properties of the estimation
    formulas.

    Numbers.  Python [int] is [Z].  Python [float] is modelled twice.

    In the modules [analog_simulator], [digital_resource_estimator] and
    [report_generator] a float is a real number and every operation is the
    exact one, so that the formulas can be reasoned about with the laws of
    arithmetic.  What Python adds to the arithmetic is kept: a true division
    by zero raises [ZeroDivisionError], [int(x)] truncates toward zero and
    refuses a non-finite argument, and numpy's [log] and [/] answer [nan] or
    [inf] instead of raising.  The theorems over this model state what
    rounding does not disturb: which exception is raised and where, which
    fields are copied, equalities between float-valued formulas, and bounds
    that hold with room to spare.

    In the module [Binary64] a float is the binary64 float of the machine:
    every operation rounds as the hardware does and every conversion
    between [int] and [float] is Python's.  The statements whose conclusion
    is an integer that the code computes from floats are made there, and so
    are the inputs on which rounding decides the outcome.

    Objects.  A method that fills attributes of [self] is a function that
    returns the filled values; a simulator or an estimator is the record of
    what [__init__] has stored when it returns, and a raising [__init__]
    yields no object. *)

From Stdlib Require Import Reals Zfloor Lra Lia ZArith List Bool Permutation.
From Stdlib Require String.
From Stdlib Require Floats.
Import ListNotations.

Open Scope R_scope.

(** ** Python values and exceptions *)

Module Py.

(** The exceptions the modelled code can raise. *)
Inductive exn : Set :=
| ValueError
| ZeroDivisionError
| OverflowError
| TypeError.

(** A computation either returns or raises. *)
Inductive result (A : Type) : Type :=
| Ok (a : A)
| Raise (e : exn).
Arguments Ok {A} a.
Arguments Raise {A} e.

Definition bind {A B : Type} (m : result A) (k : A -> result B) : result B :=
  match m with
  | Ok a => k a
  | Raise e => Raise e
  end.

Definition raises {A : Type} (m : result A) : Prop :=
  exists e, m = Raise e.

Definition returns {A : Type} (m : result A) : Prop :=
  exists a, m = Ok a.

(** Reading an attribute that may still hold [None] and using it as a
    number: arithmetic on [None] is a [TypeError]. *)
Definition need {A : Type} (o : option A) : result A :=
  match o with
  | Some a => Ok a
  | None => Raise TypeError
  end.

(** [x / y] on Python floats (and ints). *)
Definition truediv (x y : R) : result R :=
  if Req_dec_T y 0 then Raise ZeroDivisionError else Ok (x / y).

(** [int(x)] on a finite float: truncation toward zero. *)
Definition int_of_float (x : R) : Z :=
  if Rle_dec 0 x then Zfloor x else Zceil x.

End Py.

Import Py.

Declare Scope py_scope.
Delimit Scope py_scope with py.
Notation "x <- m ;; k" := (bind m (fun x => k))
  (at level 61, m at next level, right associativity) : py_scope.
Open Scope py_scope.

(** ** numpy scalars *)

Module Np.

(** A [numpy.float64]: a finite value, an infinity or [nan].  The sign of
    an infinity is not recorded, nothing in the modelled code depends on
    it. *)
Inductive float64 : Type :=
| Finite (x : R)
| Inf
| NaN.

(** [np.log(x)] on a Python float: [nan] below zero and [-inf] at zero,
    with a warning and no exception. *)
Definition log (x : R) : float64 :=
  if Rlt_dec 0 x then Finite (ln x)
  else if Req_dec_T x 0 then Inf
  else NaN.

(** [k * a] for a Python int [k] and a numpy scalar [a]. *)
Definition scale (k : Z) (a : float64) : float64 :=
  match a with
  | Finite x => Finite (IZR k * x)
  | Inf => if Z.eqb k 0 then NaN else Inf
  | NaN => NaN
  end.

(** [a / b] on numpy scalars: a zero divisor gives [inf] or [nan]. *)
Definition divide (a b : float64) : float64 :=
  match a, b with
  | NaN, _ | _, NaN => NaN
  | Inf, Inf => NaN
  | Inf, Finite _ => Inf
  | Finite _, Inf => Finite 0
  | Finite x, Finite y =>
      if Req_dec_T y 0
      then (if Req_dec_T x 0 then NaN else Inf)
      else Finite (x / y)
  end.

(** [np.ceil(a)]. *)
Definition ceil (a : float64) : float64 :=
  match a with
  | Finite x => Finite (IZR (Zceil x))
  | other => other
  end.

(** [np.exp(x)] on a Python float. *)
Definition exp (x : R) : R := Rtrigo_def.exp x.

(** [int(a)]: [OverflowError] on an infinity, [ValueError] on [nan]. *)
Definition to_int (a : float64) : result Z :=
  match a with
  | Finite x => Ok (int_of_float x)
  | Inf => Raise OverflowError
  | NaN => Raise ValueError
  end.

End Np.

(** ** Python numbers that may be complex *)

Module PyNum.

(** The value of a float expression in which [**] has been applied: a
    float, or the complex number that a negative base with a non-integral
    exponent produces. *)
Inductive number : Type :=
| Float (x : R)
| Complex (re im : R).

(** [v ** w] on floats.  A zero exponent gives 1.0; a zero base raises on
    a negative exponent; a negative base takes the integer power for an
    integral exponent and otherwise goes through complex exponentiation,
    whose polar form has modulus [(-v) ** w] and phase [pi * w]. *)
Definition float_pow (v w : R) : result number :=
  if Req_dec_T w 0 then Ok (Float 1)
  else if Req_dec_T v 0 then
    (if Rlt_dec w 0 then Raise ZeroDivisionError else Ok (Float 0))
  else if Rlt_dec v 0 then
    (if Req_dec_T w (IZR (Zfloor w))
     then Ok (Float (powerRZ v (Zfloor w)))
     else Ok (Complex (Rpower (- v) w * cos (PI * w))
                (Rpower (- v) w * sin (PI * w))))
  else Ok (Float (Rpower v w)).

(** [k * a] for a float [k]. *)
Definition scale (k : R) (a : number) : number :=
  match a with
  | Float x => Float (k * x)
  | Complex re im => Complex (k * re) (k * im)
  end.






End PyNum.

(** ** library/analog_simulator.py *)

Module analog_simulator.

Record AnalogSimulatorConfig : Type := {
  circuit_width : Z;
  qubit_t1_times : option (list R);
  default_t1 : R;
  measurement_error_rate : R;
  target_fidelity : R;
  max_runtime_multiplier : R
}.

Definition with_qubit_t1_times (c : AnalogSimulatorConfig) (l : list R)
  : AnalogSimulatorConfig :=
  {| circuit_width := circuit_width c;
     qubit_t1_times := Some l;
     default_t1 := default_t1 c;
     measurement_error_rate := measurement_error_rate c;
     target_fidelity := target_fidelity c;
     max_runtime_multiplier := max_runtime_multiplier c |}.

(** [AnalogSimulatorConfig.__post_init__].  [[x] * n] is the empty list
    for [n <= 0]. *)
Definition AnalogSimulatorConfig__post_init__ (c : AnalogSimulatorConfig)
  : result AnalogSimulatorConfig :=
  match qubit_t1_times c with
  | None =>
      Ok (with_qubit_t1_times c
            (repeat (default_t1 c) (Z.to_nat (circuit_width c))))
  | Some l =>
      if negb (Z.eqb (Z.of_nat (length l)) (circuit_width c))
      then Raise ValueError
      else Ok c
  end.

(** [sum(1.0 / t1 for t1 in ts)], the accumulator starting at [0]: the
    generator divides, then [sum] adds, one element at a time. *)
Fixpoint sum_reciprocals (acc : R) (ts : list R) : result R :=
  match ts with
  | [] => Ok acc
  | t1 :: rest =>
      r <- truediv 1 t1 ;;
      sum_reciprocals (acc + r) rest
  end.

(** [AnalogSimulator._calculate_system_t1], as a function of the
    configuration; the value is what it stores in [self._system_t1]. *)
Definition _calculate_system_t1 (c : AnalogSimulatorConfig) : result R :=
  ts <- need (qubit_t1_times c) ;;
  reciprocal_sum <- sum_reciprocals 0 ts ;;
  truediv 1 reciprocal_sum.

(** [AnalogSimulator._calculate_feasible_runtime]. *)
Definition _calculate_feasible_runtime (c : AnalogSimulatorConfig)
  (system_t1 : R) : R :=
  system_t1 * max_runtime_multiplier c.

(** An [AnalogSimulator] once [__init__] has returned. *)
Record AnalogSimulator : Type := {
  config : AnalogSimulatorConfig;
  _system_t1 : R;
  _feasible_runtime : R
}.

(** [AnalogSimulator.__init__]. *)
Definition AnalogSimulator__init__ (c : AnalogSimulatorConfig)
  : result AnalogSimulator :=
  t <- _calculate_system_t1 c ;;
  Ok {| config := c;
        _system_t1 := t;
        _feasible_runtime := _calculate_feasible_runtime c t |}.

Definition system_t1 (self : AnalogSimulator) : R := _system_t1 self.
Definition feasible_runtime (self : AnalogSimulator) : R :=
  _feasible_runtime self.
Definition feasible_runtime_ms (self : AnalogSimulator) : R :=
  _feasible_runtime self / 1000.
Definition feasible_runtime_seconds (self : AnalogSimulator) : R :=
  _feasible_runtime self / 1000000.

(** [AnalogSimulator.get_decoherence_error]. *)
Definition get_decoherence_error (self : AnalogSimulator)
  (runtime : option R) : result R :=
  let runtime :=
    match runtime with
    | None => _feasible_runtime self
    | Some r => r
    end in
  q <- truediv (- runtime) (_system_t1 self) ;;
  Ok (1 - Np.exp q).

(** [AnalogSimulator.get_total_error]. *)
Definition get_total_error (self : AnalogSimulator) (runtime : option R)
  : result R :=
  get_decoherence_error self runtime.

(** [AnalogSimulator.get_fidelity]. *)
Definition get_fidelity (self : AnalogSimulator) (runtime : option R)
  : result R :=
  e <- get_total_error self runtime ;;
  Ok (1 - e).

End analog_simulator.

(** ** library/digital_resource_estimator.py *)

Module digital_resource_estimator.

Record DigitalResourceConfig : Type := {
  logical_qubits : Z;
  target_runtime : R;
  digital_error_rate : R;
  target_logical_error_rate : R;
  code_distance : option Z;
  qubits_per_logical : option Z;
  magic_state_error_threshold : R;
  t_gate_count : Z;
  magic_state_overhead_factor : R;
  compilation_overhead_factor : R;
  physical_gate_time : R;
  logical_gate_time : option R;
  error_correction_cycle_time : option R
}.

(** The four attribute assignments of [__post_init__]. *)
Definition set_code_distance (c : DigitalResourceConfig) (d : Z)
  : DigitalResourceConfig :=
  {| logical_qubits := logical_qubits c;
     target_runtime := target_runtime c;
     digital_error_rate := digital_error_rate c;
     target_logical_error_rate := target_logical_error_rate c;
     code_distance := Some d;
     qubits_per_logical := qubits_per_logical c;
     magic_state_error_threshold := magic_state_error_threshold c;
     t_gate_count := t_gate_count c;
     magic_state_overhead_factor := magic_state_overhead_factor c;
     compilation_overhead_factor := compilation_overhead_factor c;
     physical_gate_time := physical_gate_time c;
     logical_gate_time := logical_gate_time c;
     error_correction_cycle_time := error_correction_cycle_time c |}.

Definition set_qubits_per_logical (c : DigitalResourceConfig) (q : Z)
  : DigitalResourceConfig :=
  {| logical_qubits := logical_qubits c;
     target_runtime := target_runtime c;
     digital_error_rate := digital_error_rate c;
     target_logical_error_rate := target_logical_error_rate c;
     code_distance := code_distance c;
     qubits_per_logical := Some q;
     magic_state_error_threshold := magic_state_error_threshold c;
     t_gate_count := t_gate_count c;
     magic_state_overhead_factor := magic_state_overhead_factor c;
     compilation_overhead_factor := compilation_overhead_factor c;
     physical_gate_time := physical_gate_time c;
     logical_gate_time := logical_gate_time c;
     error_correction_cycle_time := error_correction_cycle_time c |}.

Definition set_logical_gate_time (c : DigitalResourceConfig) (t : R)
  : DigitalResourceConfig :=
  {| logical_qubits := logical_qubits c;
     target_runtime := target_runtime c;
     digital_error_rate := digital_error_rate c;
     target_logical_error_rate := target_logical_error_rate c;
     code_distance := code_distance c;
     qubits_per_logical := qubits_per_logical c;
     magic_state_error_threshold := magic_state_error_threshold c;
     t_gate_count := t_gate_count c;
     magic_state_overhead_factor := magic_state_overhead_factor c;
     compilation_overhead_factor := compilation_overhead_factor c;
     physical_gate_time := physical_gate_time c;
     logical_gate_time := Some t;
     error_correction_cycle_time := error_correction_cycle_time c |}.

Definition set_error_correction_cycle_time (c : DigitalResourceConfig) (t : R)
  : DigitalResourceConfig :=
  {| logical_qubits := logical_qubits c;
     target_runtime := target_runtime c;
     digital_error_rate := digital_error_rate c;
     target_logical_error_rate := target_logical_error_rate c;
     code_distance := code_distance c;
     qubits_per_logical := qubits_per_logical c;
     magic_state_error_threshold := magic_state_error_threshold c;
     t_gate_count := t_gate_count c;
     magic_state_overhead_factor := magic_state_overhead_factor c;
     compilation_overhead_factor := compilation_overhead_factor c;
     physical_gate_time := physical_gate_time c;
     logical_gate_time := logical_gate_time c;
     error_correction_cycle_time := Some t |}.

(** The surface code threshold, the literal [0.01]. *)
Definition p_th : R := 1 / 100.

(** [d + 1] when [d % 2 == 0]; Python's [%] takes the sign of the divisor,
    as [Z.modulo] does. *)
Definition make_odd (d : Z) : Z :=
  if Z.eqb (d mod 2) 0 then (d + 1)%Z else d.

(** [DigitalResourceConfig._calculate_code_distance]. *)
Definition _calculate_code_distance (self : DigitalResourceConfig)
  : result Z :=
  let p := digital_error_rate self in
  let p_L := target_logical_error_rate self in
  if Rge_dec p p_th then Raise ValueError
  else
    ratio <- truediv p_th p ;;
    let log_ratio := Np.log ratio in
    inv <- truediv 1 p_L ;;
    d <- Np.to_int
           (Np.ceil (Np.divide (Np.scale 2 (Np.log inv)) log_ratio)) ;;
    let d := make_odd d in
    let d := Z.max d 3 in
    Ok d.

(** [DigitalResourceConfig._calculate_qubits_per_logical]. *)
Definition _calculate_qubits_per_logical (self : DigitalResourceConfig)
  : result Z :=
  d <- need (code_distance self) ;;
  Ok (2 * d ^ 2)%Z.

(** [DigitalResourceConfig.__post_init__]: each [if ... is None] either
    fills the attribute or leaves the object as it is. *)
Definition DigitalResourceConfig__post_init__ (self : DigitalResourceConfig)
  : result DigitalResourceConfig :=
  self <- match code_distance self with
          | None =>
              d <- _calculate_code_distance self ;;
              Ok (set_code_distance self d)
          | Some _ => Ok self
          end ;;
  self <- match qubits_per_logical self with
          | None =>
              q <- _calculate_qubits_per_logical self ;;
              Ok (set_qubits_per_logical self q)
          | Some _ => Ok self
          end ;;
  self <- match logical_gate_time self with
          | None =>
              d <- need (code_distance self) ;;
              Ok (set_logical_gate_time self (IZR d * physical_gate_time self))
          | Some _ => Ok self
          end ;;
  match error_correction_cycle_time self with
  | None =>
      d <- need (code_distance self) ;;
      Ok (set_error_correction_cycle_time self
            (IZR d * physical_gate_time self))
  | Some _ => Ok self
  end.

(** A [DigitalResourceEstimator] once [__init__] has returned. *)
Record DigitalResourceEstimator : Type := {
  config : DigitalResourceConfig;
  _data_qubits : Z;
  _magic_state_qubits : Z;
  _compilation_qubits : Z;
  _total_physical_qubits : Z;
  _space_time_volume : R;
  _logical_gate_count : Z
}.

(** [DigitalResourceEstimator._calculate_resources], as a function of the
    configuration; the record holds what it stores in [self]. *)
Definition _calculate_resources (c : DigitalResourceConfig)
  : result DigitalResourceEstimator :=
  qpl <- need (qubits_per_logical c) ;;
  let data_qubits := (logical_qubits c * qpl)%Z in
  let magic_state_qubits :=
    int_of_float
      (IZR (t_gate_count c) * magic_state_overhead_factor c * IZR qpl) in
  let compilation_qubits :=
    int_of_float (IZR data_qubits * (compilation_overhead_factor c - 1)) in
  let total_physical_qubits :=
    (data_qubits + magic_state_qubits + compilation_qubits)%Z in
  lgt <- need (logical_gate_time c) ;;
  gates <- truediv (target_runtime c) lgt ;;
  let logical_gate_count := int_of_float gates in
  Ok {| config := c;
        _data_qubits := data_qubits;
        _magic_state_qubits := magic_state_qubits;
        _compilation_qubits := compilation_qubits;
        _total_physical_qubits := total_physical_qubits;
        _space_time_volume := IZR total_physical_qubits * target_runtime c;
        _logical_gate_count := logical_gate_count |}.

(** [DigitalResourceEstimator.__init__]. *)
Definition DigitalResourceEstimator__init__ (c : DigitalResourceConfig)
  : result DigitalResourceEstimator :=
  _calculate_resources c.

(** [DigitalResourceEstimator.get_physical_gate_count]. *)
Definition get_physical_gate_count (self : DigitalResourceEstimator)
  : result Z :=
  d <- need (code_distance (config self)) ;;
  let physical_per_logical := (d ^ 3)%Z in
  Ok (_logical_gate_count self * physical_per_logical)%Z.

(** [DigitalResourceEstimator.get_wall_clock_time]. *)
Definition get_wall_clock_time (self : DigitalResourceEstimator)
  : result R :=
  d <- need (code_distance (config self)) ;;
  let stabilization_overhead := 1 + IZR d / 10 in
  let magic_state_time_factor :=
    1 + magic_state_overhead_factor (config self) * (1 / 10) in
  let trotter_overhead_factor := 15 / 10 in
  let qec_overhead_factor :=
    stabilization_overhead * magic_state_time_factor
    * trotter_overhead_factor in
  let wall_clock_us := target_runtime (config self) * qec_overhead_factor in
  Ok wall_clock_us.

Definition get_wall_clock_time_seconds (self : DigitalResourceEstimator)
  : result R :=
  t <- get_wall_clock_time self ;;
  Ok (t / 1000000).

Definition get_wall_clock_time_hours (self : DigitalResourceEstimator)
  : result R :=
  t <- get_wall_clock_time_seconds self ;;
  Ok (t / 3600).

Definition data_qubits (self : DigitalResourceEstimator) : Z :=
  _data_qubits self.
Definition magic_state_qubits (self : DigitalResourceEstimator) : Z :=
  _magic_state_qubits self.
Definition compilation_qubits (self : DigitalResourceEstimator) : Z :=
  _compilation_qubits self.
Definition total_physical_qubits (self : DigitalResourceEstimator) : Z :=
  _total_physical_qubits self.
Definition space_time_volume (self : DigitalResourceEstimator) : R :=
  _space_time_volume self.
Definition space_time_volume_qubit_seconds (self : DigitalResourceEstimator)
  : R :=
  _space_time_volume self / 1000000.
Definition logical_gate_count (self : DigitalResourceEstimator) : Z :=
  _logical_gate_count self.

(** [DigitalResourceEstimator.get_logical_error_rate]. *)
Definition get_logical_error_rate (self : DigitalResourceEstimator)
  : result PyNum.number :=
  let p := digital_error_rate (config self) in
  d <- need (code_distance (config self)) ;;
  let exponent := (IZR d + 1) / 2 in
  base <- truediv p p_th ;;
  power <- PyNum.float_pow base exponent ;;
  Ok (PyNum.scale (1 / 10) power).


End digital_resource_estimator.

(** ** report_generator.py, the comparison section *)

Module report_generator.

(** [round(x)] to an integer, ties to the even neighbour. *)
Definition round_half_even (x : R) : Z :=
  let f := Zfloor x in
  if Rlt_dec (x - IZR f) (1 / 2) then f
  else if Rlt_dec (1 / 2) (x - IZR f) then (f + 1)%Z
  else if Z.even f then f else (f + 1)%Z.

(** [round(x, ndigits)] read on exact decimals. *)
Definition round_to (x : R) (ndigits : nat) : R :=
  IZR (round_half_even (x * 10 ^ ndigits)) / 10 ^ ndigits.

(** The value stored under [report['comparison']]. *)
Record comparison : Type := {
  qubit_count_ratio : R;
  runtime_ratio_digital_to_analog : R;
  analog_faster : bool;
  analog_qubit_seconds : R;
  digital_qubit_seconds : R;
  ratio : R
}.

(** Lines 99 to 123 of [generate_comparison_report]: the runtime ratio, then
    the entries of the dictionary in the order they are written. *)
Definition comparison_section
  (analog_sim : analog_simulator.AnalogSimulator)
  (digital_est : digital_resource_estimator.DigitalResourceEstimator)
  : result comparison :=
  let width :=
    IZR (analog_simulator.circuit_width (analog_simulator.config analog_sim))
  in
  runtime_ratio <-
    truediv
      (digital_resource_estimator.target_runtime
         (digital_resource_estimator.config digital_est))
      (analog_simulator.feasible_runtime analog_sim) ;;
  qubits <-
    truediv
      (IZR (digital_resource_estimator.total_physical_qubits digital_est))
      width ;;
  volumes <-
    truediv
      (digital_resource_estimator.space_time_volume_qubit_seconds digital_est)
      (width * analog_simulator.feasible_runtime_seconds analog_sim) ;;
  Ok {| qubit_count_ratio := round_to qubits 2;
        runtime_ratio_digital_to_analog := round_to runtime_ratio 2;
        analog_faster := if Rgt_dec runtime_ratio 1 then true else false;
        analog_qubit_seconds :=
          round_to
            (width * analog_simulator.feasible_runtime_seconds analog_sim) 2;
        digital_qubit_seconds :=
          round_to
            (digital_resource_estimator.space_time_volume_qubit_seconds
               digital_est) 2;
        ratio := round_to volumes 2 |}.

Section Report.

(** The sections of the report written before the comparison: formatted
    views of the two models, each of which may raise on its own. *)
Variables analog_section digital_section : Type.
Variable analog_simulation :
  analog_simulator.AnalogSimulator -> result analog_section.
Variable digital_fault_tolerant :
  digital_resource_estimator.DigitalResourceEstimator ->
  result digital_section.

(** [generate_comparison_report]: the three sections in order. *)
Definition generate_comparison_report
  (analog_sim : analog_simulator.AnalogSimulator)
  (digital_est : digital_resource_estimator.DigitalResourceEstimator)
  : result (analog_section * digital_section * comparison) :=
  a <- analog_simulation analog_sim ;;
  d <- digital_fault_tolerant digital_est ;;
  c <- comparison_section analog_sim digital_est ;;
  Ok (a, d, c).

End Report.

Import String.

(** ["-" * 80] and ["=" * 80]. *)
Definition rule (c : String.string) : String.string :=
  String.concat ""%string (repeat c 80).

Section Table.

(** The float formats of the f-strings, [:.2f] and [:.2e]; formatting a
    float never raises. *)
Variables fmt_2f fmt_2e : R -> String.string.

(** The lines [format_report_table] appends from its ["COMPARISON"] heading
    to the closing rule, read off the comparison of the report. *)
Definition comparison_table_lines (c : comparison)
  : result (list String.string) :=
  let head :=
    [""; "COMPARISON"; rule "-";
     "Qubit Count Ratio (D/A):" ++ fmt_2f (qubit_count_ratio c) ++ "x";
     "Runtime Ratio (D/A):    "
       ++ fmt_2f (runtime_ratio_digital_to_analog c) ++ "x"]%string in
  verdict <-
    (if analog_faster c
     then Ok ("→ Analog simulation is "
                ++ fmt_2f (runtime_ratio_digital_to_analog c)
                ++ "x FASTER")%string
     else
       inverse <- truediv 1 (runtime_ratio_digital_to_analog c) ;;
       Ok ("→ Digital computation is " ++ fmt_2f inverse
             ++ "x FASTER")%string) ;;
  Ok (head ++ [verdict] ++
      [""; "Space-Time Resources:";
       "  Analog:  " ++ fmt_2e (analog_qubit_seconds c) ++ " qubit-s";
       "  Digital: " ++ fmt_2e (digital_qubit_seconds c) ++ " qubit-s";
       "  Ratio:   " ++ fmt_2e (ratio c) ++ "x";
       rule "="]%string)%list.

End Table.

End report_generator.

(** ** The program in IEEE binary64 arithmetic

    The same functions with Python's [float] as the binary64 float of the
    machine: every [+], [-], [*] and [/] rounds as the hardware does,
    comparisons are IEEE comparisons, and the conversions between [int] and
    [float] are Python's.  [np.log] and [np.exp] are library calls whose
    last bit is not fixed by IEEE 754; the functions that use them take them
    as a parameter and the theorems about them hold for every such
    function. *)

Module Binary64.
Import PrimFloat SpecFloat FloatOps.
Set Warnings "-inexact-float".

(** The real number a finite float stands for; 0 for the others. *)
Definition value (x : float) : R :=
  match Prim2SF x with
  | S754_finite s m e => IZR (if s then Zneg m else Zpos m) * powerRZ 2 e
  | _ => 0
  end.

(** Neither [nan] nor an infinity. *)
Definition finite (x : float) : bool :=
  match Prim2SF x with
  | S754_zero _ | S754_finite _ _ _ => true
  | _ => false
  end.

(** The integer part and the ceiling of [m * 2^e] for a mantissa [m]. *)
Definition floor_scaled (m : positive) (e : Z) : Z :=
  match e with
  | Zneg k => (Zpos m / 2 ^ Zpos k)%Z
  | _ => (Zpos m * 2 ^ e)%Z
  end.

Definition ceil_scaled (m : positive) (e : Z) : Z :=
  match e with
  | Zneg k =>
      if (Zpos m mod 2 ^ Zpos k =? 0)%Z then (Zpos m / 2 ^ Zpos k)%Z
      else (Zpos m / 2 ^ Zpos k + 1)%Z
  | _ => (Zpos m * 2 ^ e)%Z
  end.

(** [int(x)] on a float: the digits after the point are dropped;
    [ValueError] on [nan], [OverflowError] on an infinity. *)
Definition int_of_float (x : float) : result Z :=
  match Prim2SF x with
  | S754_nan => Raise ValueError
  | S754_infinity _ => Raise OverflowError
  | S754_zero _ => Ok 0%Z
  | S754_finite s m e =>
      Ok (if s then (- floor_scaled m e)%Z else floor_scaled m e)
  end.

(** [int(np.ceil(x))]: [np.ceil] answers the float that holds the ceiling,
    which [int] converts without loss; [nan] and the infinities pass
    through [np.ceil] and make [int] raise. *)
Definition int_of_ceil (x : float) : result Z :=
  match Prim2SF x with
  | S754_nan => Raise ValueError
  | S754_infinity _ => Raise OverflowError
  | S754_zero _ => Ok 0%Z
  | S754_finite s m e =>
      Ok (if s then (- floor_scaled m e)%Z else ceil_scaled m e)
  end.

(** The conversion of a Python [int] that meets a float in [*] or [/]:
    the nearest float, ties to even, and [OverflowError] when the integer is
    beyond the largest float. *)
Definition float_of_int (n : Z) : result float :=
  match binary_normalize prec emax n 0 false with
  | S754_infinity _ => Raise OverflowError
  | sf => Ok (SF2Prim sf)
  end.


(** [x / y] on Python floats. *)
Definition truediv (x y : float) : result float :=
  if (y =? 0)%float then Raise ZeroDivisionError else Ok (x / y)%float.

(** [n * x] for a Python int [n] and a float [x]. *)
Definition int_times_float (n : Z) (x : float) : result float :=
  f <- float_of_int n ;;
  Ok (f * x)%float.

(** *** library/analog_simulator.py *)

(** [sum(1.0 / t1 for t1 in ts)] on floats, the additions taken from left
    to right and each of them rounded; [None] stands for the
    [ZeroDivisionError] of a zero divisor.  (From CPython 3.12 on, [sum]
    carries a correction term for the rounding errors; the lists evaluated
    below give the same floats with it.) *)
Fixpoint sum_reciprocals (acc : float) (ts : list float) : option float :=
  match ts with
  | [] => Some acc
  | t1 :: rest =>
      if PrimFloat.eqb t1 0%float then None
      else sum_reciprocals (acc + 1 / t1)%float rest
  end.

Definition _calculate_system_t1 (ts : list float) : option float :=
  match sum_reciprocals 0%float ts with
  | None => None
  | Some s => if PrimFloat.eqb s 0%float then None else Some (1 / s)%float
  end.

Definition _calculate_feasible_runtime (system_t1 m : float) : float :=
  (system_t1 * m)%float.

(** What [AnalogSimulator.__init__] stores, from the list of T1 times and
    the multiplier of the configuration. *)
Record AnalogSimulator : Type := {
  _system_t1 : float;
  _feasible_runtime : float
}.

Definition AnalogSimulator__init__ (qubit_t1_times : list float)
  (max_runtime_multiplier : float) : result AnalogSimulator :=
  match _calculate_system_t1 qubit_t1_times with
  | None => Raise ZeroDivisionError
  | Some t =>
      Ok {| _system_t1 := t;
            _feasible_runtime :=
              _calculate_feasible_runtime t max_runtime_multiplier |}
  end.

Section Exp.

(** [np.exp] on floats. *)
Variable np_exp : float -> float.

Definition get_decoherence_error (self : AnalogSimulator)
  (runtime : option float) : result float :=
  let runtime :=
    match runtime with
    | None => _feasible_runtime self
    | Some r => r
    end in
  q <- truediv (- runtime)%float (_system_t1 self) ;;
  Ok (1 - np_exp q)%float.

Definition get_total_error (self : AnalogSimulator) (runtime : option float)
  : result float :=
  get_decoherence_error self runtime.

Definition get_fidelity (self : AnalogSimulator) (runtime : option float)
  : result float :=
  e <- get_total_error self runtime ;;
  Ok (1 - e)%float.

End Exp.

(** The two products [_calculate_resources] hands to [int]. *)
Definition magic_state_product (t_gate_count m qubits_per_logical : float)
  : float :=
  (t_gate_count * m * qubits_per_logical)%float.

Definition compilation_product (data_qubits c : float) : float :=
  (data_qubits * (c - 1))%float.

(** [int(x) == 1] for a float [x]: truncation gives 1 exactly on [1, 2). *)
Definition truncates_to_one (x : float) : bool :=
  PrimFloat.leb 1%float x && PrimFloat.ltb x 2%float.

(** Python's [x == y] on an optional float result. *)
Definition is_float (r : option float) (expected : float) : bool :=
  match r with
  | Some x => PrimFloat.eqb x expected
  | None => false
  end.

(** *** library/digital_resource_estimator.py *)

Record DigitalResourceConfig : Type := {
  logical_qubits : Z;
  target_runtime : float;
  digital_error_rate : float;
  target_logical_error_rate : float;
  code_distance : option Z;
  qubits_per_logical : option Z;
  magic_state_error_threshold : float;
  t_gate_count : Z;
  magic_state_overhead_factor : float;
  compilation_overhead_factor : float;
  physical_gate_time : float;
  logical_gate_time : option float;
  error_correction_cycle_time : option float
}.

Definition set_code_distance (c : DigitalResourceConfig) (d : Z)
  : DigitalResourceConfig :=
  {| logical_qubits := logical_qubits c;
     target_runtime := target_runtime c;
     digital_error_rate := digital_error_rate c;
     target_logical_error_rate := target_logical_error_rate c;
     code_distance := Some d;
     qubits_per_logical := qubits_per_logical c;
     magic_state_error_threshold := magic_state_error_threshold c;
     t_gate_count := t_gate_count c;
     magic_state_overhead_factor := magic_state_overhead_factor c;
     compilation_overhead_factor := compilation_overhead_factor c;
     physical_gate_time := physical_gate_time c;
     logical_gate_time := logical_gate_time c;
     error_correction_cycle_time := error_correction_cycle_time c |}.

Definition set_qubits_per_logical (c : DigitalResourceConfig) (q : Z)
  : DigitalResourceConfig :=
  {| logical_qubits := logical_qubits c;
     target_runtime := target_runtime c;
     digital_error_rate := digital_error_rate c;
     target_logical_error_rate := target_logical_error_rate c;
     code_distance := code_distance c;
     qubits_per_logical := Some q;
     magic_state_error_threshold := magic_state_error_threshold c;
     t_gate_count := t_gate_count c;
     magic_state_overhead_factor := magic_state_overhead_factor c;
     compilation_overhead_factor := compilation_overhead_factor c;
     physical_gate_time := physical_gate_time c;
     logical_gate_time := logical_gate_time c;
     error_correction_cycle_time := error_correction_cycle_time c |}.

Definition set_logical_gate_time (c : DigitalResourceConfig) (t : float)
  : DigitalResourceConfig :=
  {| logical_qubits := logical_qubits c;
     target_runtime := target_runtime c;
     digital_error_rate := digital_error_rate c;
     target_logical_error_rate := target_logical_error_rate c;
     code_distance := code_distance c;
     qubits_per_logical := qubits_per_logical c;
     magic_state_error_threshold := magic_state_error_threshold c;
     t_gate_count := t_gate_count c;
     magic_state_overhead_factor := magic_state_overhead_factor c;
     compilation_overhead_factor := compilation_overhead_factor c;
     physical_gate_time := physical_gate_time c;
     logical_gate_time := Some t;
     error_correction_cycle_time := error_correction_cycle_time c |}.

Definition set_error_correction_cycle_time (c : DigitalResourceConfig)
  (t : float) : DigitalResourceConfig :=
  {| logical_qubits := logical_qubits c;
     target_runtime := target_runtime c;
     digital_error_rate := digital_error_rate c;
     target_logical_error_rate := target_logical_error_rate c;
     code_distance := code_distance c;
     qubits_per_logical := qubits_per_logical c;
     magic_state_error_threshold := magic_state_error_threshold c;
     t_gate_count := t_gate_count c;
     magic_state_overhead_factor := magic_state_overhead_factor c;
     compilation_overhead_factor := compilation_overhead_factor c;
     physical_gate_time := physical_gate_time c;
     logical_gate_time := logical_gate_time c;
     error_correction_cycle_time := Some t |}.

(** The surface code threshold: the float of the literal [0.01]. *)
Definition p_th : float := 0.01%float.

Section Log.

(** [np.log] on floats. *)
Variable np_log : float -> float.

(** [DigitalResourceConfig._calculate_code_distance].  [p >= p_th] is false
    on [nan]; the two divisions are Python's and raise on a zero divisor;
    the arithmetic on the results of [np.log] is numpy's and does not
    raise. *)
Definition _calculate_code_distance (self : DigitalResourceConfig)
  : result Z :=
  let p := digital_error_rate self in
  let p_L := target_logical_error_rate self in
  if (p_th <=? p)%float then Raise ValueError
  else
    ratio <- truediv p_th p ;;
    let log_ratio := np_log ratio in
    inv <- truediv 1%float p_L ;;
    d <- int_of_ceil (2 * np_log inv / log_ratio)%float ;;
    let d := digital_resource_estimator.make_odd d in
    let d := Z.max d 3 in
    Ok d.

(** [DigitalResourceConfig._calculate_qubits_per_logical]. *)
Definition _calculate_qubits_per_logical (self : DigitalResourceConfig)
  : result Z :=
  d <- need (code_distance self) ;;
  Ok (2 * d ^ 2)%Z.

(** [DigitalResourceConfig.__post_init__]. *)
Definition DigitalResourceConfig__post_init__ (self : DigitalResourceConfig)
  : result DigitalResourceConfig :=
  self <- match code_distance self with
          | None =>
              d <- _calculate_code_distance self ;;
              Ok (set_code_distance self d)
          | Some _ => Ok self
          end ;;
  self <- match qubits_per_logical self with
          | None =>
              q <- _calculate_qubits_per_logical self ;;
              Ok (set_qubits_per_logical self q)
          | Some _ => Ok self
          end ;;
  self <- match logical_gate_time self with
          | None =>
              d <- need (code_distance self) ;;
              t <- int_times_float d (physical_gate_time self) ;;
              Ok (set_logical_gate_time self t)
          | Some _ => Ok self
          end ;;
  match error_correction_cycle_time self with
  | None =>
      d <- need (code_distance self) ;;
      t <- int_times_float d (physical_gate_time self) ;;
      Ok (set_error_correction_cycle_time self t)
  | Some _ => Ok self
  end.

End Log.

(** A [DigitalResourceEstimator] once [__init__] has returned. *)
Record DigitalResourceEstimator : Type := {
  config : DigitalResourceConfig;
  _data_qubits : Z;
  _magic_state_qubits : Z;
  _compilation_qubits : Z;
  _total_physical_qubits : Z;
  _space_time_volume : float;
  _logical_gate_count : Z
}.

(** [DigitalResourceEstimator._calculate_resources].  In
    [t_gate_count * magic_state_overhead_factor * qubits_per_logical] the
    first integer is converted and multiplied, then the second; in
    [data_qubits * (compilation_overhead_factor - 1.0)] the difference is
    taken before the integer is converted. *)
Definition _calculate_resources (c : DigitalResourceConfig)
  : result DigitalResourceEstimator :=
  qpl <- need (qubits_per_logical c) ;;
  let data_qubits := (logical_qubits c * qpl)%Z in
  t <- float_of_int (t_gate_count c) ;;
  q <- float_of_int qpl ;;
  magic_state_qubits <-
    int_of_float (t * magic_state_overhead_factor c * q)%float ;;
  let margin := (compilation_overhead_factor c - 1)%float in
  dq <- float_of_int data_qubits ;;
  compilation_qubits <- int_of_float (dq * margin)%float ;;
  let total_physical_qubits :=
    (data_qubits + magic_state_qubits + compilation_qubits)%Z in
  lgt <- need (logical_gate_time c) ;;
  gates <- truediv (target_runtime c) lgt ;;
  logical_gate_count <- int_of_float gates ;;
  volume <- int_times_float total_physical_qubits (target_runtime c) ;;
  Ok {| config := c;
        _data_qubits := data_qubits;
        _magic_state_qubits := magic_state_qubits;
        _compilation_qubits := compilation_qubits;
        _total_physical_qubits := total_physical_qubits;
        _space_time_volume := volume;
        _logical_gate_count := logical_gate_count |}.

(** [DigitalResourceEstimator.__init__]. *)
Definition DigitalResourceEstimator__init__ (c : DigitalResourceConfig)
  : result DigitalResourceEstimator :=
  _calculate_resources c.

(** [DigitalResourceEstimator.get_physical_gate_count]. *)
Definition get_physical_gate_count (self : DigitalResourceEstimator)
  : result Z :=
  d <- need (code_distance (config self)) ;;
  let physical_per_logical := (d ^ 3)%Z in
  Ok (_logical_gate_count self * physical_per_logical)%Z.

(** [DigitalResourceEstimator.get_wall_clock_time]. *)
Definition get_wall_clock_time (self : DigitalResourceEstimator)
  : result float :=
  d <- need (code_distance (config self)) ;;
  fd <- float_of_int d ;;
  let stabilization_overhead := (1 + fd / 10)%float in
  let magic_state_time_factor :=
    (1 + magic_state_overhead_factor (config self) * 0.1)%float in
  let trotter_overhead_factor := 1.5%float in
  let qec_overhead_factor :=
    (stabilization_overhead * magic_state_time_factor
     * trotter_overhead_factor)%float in
  let wall_clock_us :=
    (target_runtime (config self) * qec_overhead_factor)%float in
  Ok wall_clock_us.

Definition data_qubits (self : DigitalResourceEstimator) : Z :=
  _data_qubits self.
Definition magic_state_qubits (self : DigitalResourceEstimator) : Z :=
  _magic_state_qubits self.
Definition compilation_qubits (self : DigitalResourceEstimator) : Z :=
  _compilation_qubits self.
Definition total_physical_qubits (self : DigitalResourceEstimator) : Z :=
  _total_physical_qubits self.
Definition space_time_volume (self : DigitalResourceEstimator) : float :=
  _space_time_volume self.
Definition logical_gate_count (self : DigitalResourceEstimator) : Z :=
  _logical_gate_count self.

(** The configuration [__post_init__] leaves behind when the code distance
    is [d] and [fd] is [d] as a float. *)
Definition resolved (c : DigitalResourceConfig) (d : Z) (fd : float)
  : DigitalResourceConfig :=
  {| logical_qubits := logical_qubits c;
     target_runtime := target_runtime c;
     digital_error_rate := digital_error_rate c;
     target_logical_error_rate := target_logical_error_rate c;
     code_distance := Some d;
     qubits_per_logical :=
       Some (match qubits_per_logical c with
             | Some q => q
             | None => 2 * d ^ 2
             end)%Z;
     magic_state_error_threshold := magic_state_error_threshold c;
     t_gate_count := t_gate_count c;
     magic_state_overhead_factor := magic_state_overhead_factor c;
     compilation_overhead_factor := compilation_overhead_factor c;
     physical_gate_time := physical_gate_time c;
     logical_gate_time :=
       Some (match logical_gate_time c with
             | Some t => t
             | None => (fd * physical_gate_time c)%float
             end);
     error_correction_cycle_time :=
       Some (match error_correction_cycle_time c with
             | Some t => t
             | None => (fd * physical_gate_time c)%float
             end) |}.

End Binary64.

(** ** Reference notions used in the statements *)

Module Reference.
Import analog_simulator.

(** The sum of the reciprocals, as the docstring writes it:
    [1/T1_system = sum(1/T1_i)]. *)
Definition reciprocal_sum (ts : list R) : R :=
  fold_right Rplus 0 (map Rinv ts).


Definition all_positive (ts : list R) : Prop := Forall (fun t => 0 < t) ts.

(** The whole life of an analog model: the dataclass is created, which runs
    [__post_init__], and handed to the simulator. *)
Definition simulate (c : AnalogSimulatorConfig) : result AnalogSimulator :=
  c' <- AnalogSimulatorConfig__post_init__ c ;;
  AnalogSimulator__init__ c'.

(** Every numeric output of an analog simulator, at one [runtime]
    argument. *)
Record outputs : Type := {
  out_system_t1 : R;
  out_feasible_runtime : R;
  out_decoherence_error : result R;
  out_total_error : result R;
  out_fidelity : result R
}.

Definition outputs_of (sim : AnalogSimulator) (runtime : option R)
  : outputs :=
  {| out_system_t1 := system_t1 sim;
     out_feasible_runtime := feasible_runtime sim;
     out_decoherence_error := get_decoherence_error sim runtime;
     out_total_error := get_total_error sim runtime;
     out_fidelity := get_fidelity sim runtime |}.

Definition observe (c : AnalogSimulatorConfig) (runtime : option R)
  : result outputs :=
  sim <- simulate c ;;
  Ok (outputs_of sim runtime).

(** Two configurations that agree on every field except, possibly,
    [measurement_error_rate] and [target_fidelity]. *)
Definition differ_only_in_measurement_and_fidelity
  (c1 c2 : AnalogSimulatorConfig) : Prop :=
  circuit_width c1 = circuit_width c2 /\
  qubit_t1_times c1 = qubit_t1_times c2 /\
  default_t1 c1 = default_t1 c2 /\
  max_runtime_multiplier c1 = max_runtime_multiplier c2.

(** The whole life of a digital model: the dataclass is created, which
    runs [__post_init__], and handed to the estimator. *)
Definition estimate (c : digital_resource_estimator.DigitalResourceConfig)
  : result digital_resource_estimator.DigitalResourceEstimator :=
  c' <- digital_resource_estimator.DigitalResourceConfig__post_init__ c ;;
  digital_resource_estimator.DigitalResourceEstimator__init__ c'.

(** [n] is an integer nearest to [x], whatever the rule for ties. *)
Definition nearest_integer (x : R) (n : Z) : Prop :=
  Rabs (x - IZR n) <= 1 / 2.

(** The distance of the specification: the ceiling of
    [2 ln(1/p_L) / ln(p_th/p)], made odd, at least 3. *)
Definition code_distance_formula (p p_L : R) : Z :=
  Z.max
    (digital_resource_estimator.make_odd
       (Zceil (2 * ln (1 / p_L)
               / ln (digital_resource_estimator.p_th / p))))
    3.




End Reference.

Module DigitalReference.
Import digital_resource_estimator.

(** The configuration [__post_init__] leaves behind when the code distance
    is [d]: every attribute that was [None] is filled from [d]. *)
Definition resolved (c : DigitalResourceConfig) (d : Z)
  : DigitalResourceConfig :=
  {| logical_qubits := logical_qubits c;
     target_runtime := target_runtime c;
     digital_error_rate := digital_error_rate c;
     target_logical_error_rate := target_logical_error_rate c;
     code_distance := Some d;
     qubits_per_logical :=
       Some (match qubits_per_logical c with
             | Some q => q
             | None => 2 * d ^ 2
             end)%Z;
     magic_state_error_threshold := magic_state_error_threshold c;
     t_gate_count := t_gate_count c;
     magic_state_overhead_factor := magic_state_overhead_factor c;
     compilation_overhead_factor := compilation_overhead_factor c;
     physical_gate_time := physical_gate_time c;
     logical_gate_time :=
       Some (match logical_gate_time c with
             | Some t => t
             | None => IZR d * physical_gate_time c
             end);
     error_correction_cycle_time :=
       Some (match error_correction_cycle_time c with
             | Some t => t
             | None => IZR d * physical_gate_time c
             end) |}.


(** Truncation toward zero, stated without [int]: [n] is the integer part
    of [x]. *)
Definition truncation (x : R) (n : Z) : Prop :=
  (0 <= x -> IZR n <= x < IZR n + 1) /\
  (x <= 0 -> IZR n - 1 < x <= IZR n).

End DigitalReference.

(** ** The inputs of the scenarios *)

Module AnalogInputs.
Import analog_simulator.

(** The scenario of the specification: five qubits, 100 us each. *)
Definition scenario_A : AnalogSimulatorConfig :=
  {| circuit_width := 5;
     qubit_t1_times := Some [100; 100; 100; 100; 100];
     default_t1 := 100;
     measurement_error_rate := 1 / 100;
     target_fidelity := 99 / 100;
     max_runtime_multiplier := 1 |}.

(** Scenario A with [max_runtime_multiplier=0]. *)
Definition zero_multiplier : AnalogSimulatorConfig :=
  {| circuit_width := 5;
     qubit_t1_times := Some [100; 100; 100; 100; 100];
     default_t1 := 100;
     measurement_error_rate := 1 / 100;
     target_fidelity := 99 / 100;
     max_runtime_multiplier := 0 |}.

(** A single qubit with a negative T1 time. *)
Definition negative_t1 : AnalogSimulatorConfig :=
  {| circuit_width := 1;
     qubit_t1_times := Some [-100];
     default_t1 := 100;
     measurement_error_rate := 1 / 100;
     target_fidelity := 99 / 100;
     max_runtime_multiplier := 1 |}.

(** A qubit whose T1 time is zero, after a good one. *)
Definition zero_t1 : AnalogSimulatorConfig :=
  {| circuit_width := 2;
     qubit_t1_times := Some [100; 0];
     default_t1 := 100;
     measurement_error_rate := 1 / 100;
     target_fidelity := 99 / 100;
     max_runtime_multiplier := 1 |}.

End AnalogInputs.

Module DigitalInputs.
Import digital_resource_estimator.

(** The scenarios of the specification and the inputs used below. *)
Definition scenario_B : DigitalResourceConfig :=
  {| logical_qubits := 1;
     target_runtime := 1 / 2;
     digital_error_rate := 1 / 10000;
     target_logical_error_rate := 1 / 10 ^ 10;
     code_distance := None;
     qubits_per_logical := None;
     magic_state_error_threshold := 1 / 1000;
     t_gate_count := 100;
     magic_state_overhead_factor := 2;
     compilation_overhead_factor := 15 / 10;
     physical_gate_time := 1 / 10;
     logical_gate_time := None;
     error_correction_cycle_time := None |}.

(** Scenario C: an error rate of 0.02 and no code distance. *)
Definition scenario_C : DigitalResourceConfig :=
  {| logical_qubits := 1;
     target_runtime := 1 / 2;
     digital_error_rate := 2 / 100;
     target_logical_error_rate := 1 / 10 ^ 10;
     code_distance := None;
     qubits_per_logical := None;
     magic_state_error_threshold := 1 / 1000;
     t_gate_count := 100;
     magic_state_overhead_factor := 2;
     compilation_overhead_factor := 15 / 10;
     physical_gate_time := 1 / 10;
     logical_gate_time := None;
     error_correction_cycle_time := None |}.

(** The same error rate of 0.02 with [code_distance=5] supplied. *)
Definition above_threshold_explicit : DigitalResourceConfig :=
  {| logical_qubits := 1;
     target_runtime := 1 / 2;
     digital_error_rate := 2 / 100;
     target_logical_error_rate := 1 / 10 ^ 10;
     code_distance := Some 5%Z;
     qubits_per_logical := None;
     magic_state_error_threshold := 1 / 1000;
     t_gate_count := 100;
     magic_state_overhead_factor := 2;
     compilation_overhead_factor := 15 / 10;
     physical_gate_time := 1 / 10;
     logical_gate_time := None;
     error_correction_cycle_time := None |}.

(** One T gate, overhead factors 0.1 and 1.1, distance 3: both products
    are 1.8. *)
Definition fractional_overheads : DigitalResourceConfig :=
  {| logical_qubits := 1;
     target_runtime := 1 / 2;
     digital_error_rate := 1 / 10000;
     target_logical_error_rate := 1 / 10 ^ 10;
     code_distance := Some 3%Z;
     qubits_per_logical := None;
     magic_state_error_threshold := 1 / 1000;
     t_gate_count := 1;
     magic_state_overhead_factor := 1 / 10;
     compilation_overhead_factor := 11 / 10;
     physical_gate_time := 1 / 10;
     logical_gate_time := None;
     error_correction_cycle_time := None |}.

(** An even code distance below 3. *)
Definition distance_two : DigitalResourceConfig :=
  {| logical_qubits := 1;
     target_runtime := 1 / 2;
     digital_error_rate := 1 / 10000;
     target_logical_error_rate := 1 / 10 ^ 10;
     code_distance := Some 2%Z;
     qubits_per_logical := None;
     magic_state_error_threshold := 1 / 1000;
     t_gate_count := 100;
     magic_state_overhead_factor := 2;
     compilation_overhead_factor := 15 / 10;
     physical_gate_time := 1 / 10;
     logical_gate_time := None;
     error_correction_cycle_time := None |}.

End DigitalInputs.

Module ExtraInputs.
Import analog_simulator.

(** The default configuration of [n] qubits. *)
Definition default_qubits (n : Z) (t1 m : R) : AnalogSimulatorConfig :=
  {| circuit_width := n;
     qubit_t1_times := None;
     default_t1 := t1;
     measurement_error_rate := 1 / 100;
     target_fidelity := 99 / 100;
     max_runtime_multiplier := m |}.

(** A register with the T1 times [ts], one per qubit. *)
Definition register (ts : list R) : AnalogSimulatorConfig :=
  {| circuit_width := Z.of_nat (length ts);
     qubit_t1_times := Some ts;
     default_t1 := 100;
     measurement_error_rate := 1 / 100;
     target_fidelity := 99 / 100;
     max_runtime_multiplier := 1 |}.

(** Scenario B with the error rate [p] and the code distance [d]
    supplied. *)
Definition explicit_distance (p : R) (d : Z)
  : digital_resource_estimator.DigitalResourceConfig :=
  {| digital_resource_estimator.logical_qubits := 1;
     digital_resource_estimator.target_runtime := 1 / 2;
     digital_resource_estimator.digital_error_rate := p;
     digital_resource_estimator.target_logical_error_rate := 1 / 10 ^ 10;
     digital_resource_estimator.code_distance := Some d;
     digital_resource_estimator.qubits_per_logical := None;
     digital_resource_estimator.magic_state_error_threshold := 1 / 1000;
     digital_resource_estimator.t_gate_count := 100;
     digital_resource_estimator.magic_state_overhead_factor := 2;
     digital_resource_estimator.compilation_overhead_factor := 15 / 10;
     digital_resource_estimator.physical_gate_time := 1 / 10;
     digital_resource_estimator.logical_gate_time := None;
     digital_resource_estimator.error_correction_cycle_time := None |}.

End ExtraInputs.

Module Binary64Inputs.
Import PrimFloat Binary64.
Set Warnings "-inexact-float".

(** What [numpy.log] answers at the arguments used below: 4.0, 8.0, 100.0
    and 1e10. *)
Definition np_log (x : float) : float :=
  if (x =? 4)%float then 1.3862943611198906%float
  else if (x =? 8)%float then 2.0794415416798357%float
  else if (x =? 100)%float then 4.605170185988092%float
  else if (x =? 1e10)%float then 23.025850929940457%float
  else nan.

(** What [numpy.exp] answers at 0.0 and at 50.0. *)
Definition np_exp (x : float) : float :=
  if (x =? 0)%float then 1%float
  else if (x =? 50)%float then 5.184705528587072e21%float
  else nan.


(** Scenario B of the specification. *)
Definition scenario_B : DigitalResourceConfig :=
  {| logical_qubits := 1;
     target_runtime := 0.5;
     digital_error_rate := 1e-4;
     target_logical_error_rate := 1e-10;
     code_distance := None;
     qubits_per_logical := None;
     magic_state_error_threshold := 1e-3;
     t_gate_count := 100;
     magic_state_overhead_factor := 2;
     compilation_overhead_factor := 1.5;
     physical_gate_time := 0.1;
     logical_gate_time := None;
     error_correction_cycle_time := None |}.



(** One T gate, overhead factors 0.1 and 1.1, distance 3. *)
Definition fractional_overheads : DigitalResourceConfig :=
  {| logical_qubits := 1;
     target_runtime := 0.5;
     digital_error_rate := 1e-4;
     target_logical_error_rate := 1e-10;
     code_distance := Some 3%Z;
     qubits_per_logical := None;
     magic_state_error_threshold := 1e-3;
     t_gate_count := 1;
     magic_state_overhead_factor := 0.1;
     compilation_overhead_factor := 1.1;
     physical_gate_time := 0.1;
     logical_gate_time := None;
     error_correction_cycle_time := None |}.

(** An even code distance below 3. *)
Definition distance_two : DigitalResourceConfig :=
  {| logical_qubits := 1;
     target_runtime := 0.5;
     digital_error_rate := 1e-4;
     target_logical_error_rate := 1e-10;
     code_distance := Some 2%Z;
     qubits_per_logical := None;
     magic_state_error_threshold := 1e-3;
     t_gate_count := 100;
     magic_state_overhead_factor := 2;
     compilation_overhead_factor := 1.5;
     physical_gate_time := 0.1;
     logical_gate_time := None;
     error_correction_cycle_time := None |}.

End Binary64Inputs.

(** ** Facts about the Python layer *)

Module PyFacts.

Lemma truediv_ok (x y : R) : y <> 0 -> truediv x y = Ok (x / y).
Proof.
  intros Hy. unfold truediv.
  destruct (Req_dec_T y 0) as [E | _]; [contradiction | reflexivity].
Qed.

Lemma truediv_zero (x : R) : truediv x 0 = Raise ZeroDivisionError.
Proof.
  unfold truediv.
  destruct (Req_dec_T 0 0) as [_ | N]; [reflexivity | now elim N].
Qed.

Lemma truediv_cases (x y : R) :
  (y = 0 /\ truediv x y = Raise ZeroDivisionError) \/
  (y <> 0 /\ truediv x y = Ok (x / y)).
Proof.
  destruct (Req_dec_T y 0) as [E | N].
  - left. subst y. split; [reflexivity | apply truediv_zero].
  - right. split; [assumption | now apply truediv_ok].
Qed.

Lemma int_of_float_nonneg (x : R) : 0 <= x -> int_of_float x = Zfloor x.
Proof.
  intros Hx. unfold int_of_float.
  destruct (Rle_dec 0 x); [reflexivity | contradiction].
Qed.

Lemma int_of_float_IZR (z : Z) : int_of_float (IZR z) = z.
Proof.
  unfold int_of_float. destruct (Rle_dec 0 (IZR z)).
  - apply ZfloorZ.
  - unfold Zceil. rewrite <- opp_IZR, ZfloorZ. lia.
Qed.

End PyFacts.

Import PyFacts.

(** ** The analog model *)

Module AnalogFacts.
Import analog_simulator Reference AnalogInputs.

(** Every element of a literal list is positive. *)
Ltac positive_list := repeat constructor; lra.

Lemma sum_reciprocals_nonzero (ts : list R) (acc : R) :
  Forall (fun t => t <> 0) ts ->
  sum_reciprocals acc ts = Ok (acc + reciprocal_sum ts).
Proof.
  intros H. revert acc.
  induction H as [| t rest Ht _ IH]; intros acc; simpl.
  - f_equal. unfold reciprocal_sum. simpl. ring.
  - rewrite (truediv_ok 1 t Ht). simpl. rewrite IH. f_equal.
    unfold reciprocal_sum. simpl. unfold Rdiv. ring.
Qed.

Lemma sum_reciprocals_zero (ts : list R) (acc : R) :
  In 0 ts -> sum_reciprocals acc ts = Raise ZeroDivisionError.
Proof.
  revert acc. induction ts as [| t rest IH]; intros acc Hin.
  - destruct Hin.
  - simpl. destruct (truediv_cases 1 t) as [[_ ->] | [Ht ->]]; simpl.
    + reflexivity.
    + apply IH. destruct Hin as [E | Hin]; [now elim Ht | assumption].
Qed.

Lemma all_positive_nonzero (ts : list R) :
  all_positive ts -> Forall (fun t => t <> 0) ts.
Proof.
  intros H. eapply Forall_impl; [| exact H]. simpl. intros t Ht. lra.
Qed.

Lemma reciprocal_sum_nonneg (ts : list R) :
  all_positive ts -> 0 <= reciprocal_sum ts.
Proof.
  induction 1 as [| t rest Ht _ IH]; unfold reciprocal_sum in *; simpl.
  - lra.
  - pose proof (Rinv_0_lt_compat t Ht). lra.
Qed.

Lemma reciprocal_sum_ge (ts : list R) (t : R) :
  all_positive ts -> In t ts -> / t <= reciprocal_sum ts.
Proof.
  intros Hpos. induction Hpos as [| u rest Hu Hrest IH]; intros Hin.
  - destruct Hin.
  - pose proof (reciprocal_sum_nonneg rest Hrest) as Hnn.
    unfold reciprocal_sum in *. simpl.
    destruct Hin as [-> | Hin].
    + lra.
    + specialize (IH Hin). pose proof (Rinv_0_lt_compat u Hu). lra.
Qed.

Lemma reciprocal_sum_pos (ts : list R) :
  all_positive ts -> ts <> [] -> 0 < reciprocal_sum ts.
Proof.
  intros Hpos Hne. destruct ts as [| t rest]; [now elim Hne |].
  pose proof (reciprocal_sum_ge (t :: rest) t Hpos (or_introl eq_refl)).
  inversion Hpos as [| ? ? Ht _]; subst.
  pose proof (Rinv_0_lt_compat t Ht). lra.
Qed.

Lemma reciprocal_sum_uniform (ts : list R) (t : R) :
  t <> 0 -> (forall x, In x ts -> x = t) ->
  reciprocal_sum ts = INR (length ts) / t.
Proof.
  intros Ht. induction ts as [| u rest IH]; intros Hall.
  - unfold reciprocal_sum. simpl. field. exact Ht.
  - assert (u = t) as -> by (apply Hall; now left).
    change (reciprocal_sum (t :: rest)) with (/ t + reciprocal_sum rest).
    rewrite IH by (intros x Hx; apply Hall; now right).
    change (length (t :: rest)) with (S (length rest)). rewrite S_INR.
    field. exact Ht.
Qed.


(** Construction returns on a non-empty list of positive T1 times, with the
    reciprocal of the reciprocal sum. *)
Lemma init_positive (c : AnalogSimulatorConfig) (ts : list R) :
  qubit_t1_times c = Some ts -> all_positive ts -> ts <> [] ->
  AnalogSimulator__init__ c =
    Ok {| config := c;
          _system_t1 := 1 / reciprocal_sum ts;
          _feasible_runtime :=
            1 / reciprocal_sum ts * max_runtime_multiplier c |}.
Proof.
  intros Hts Hpos Hne.
  unfold AnalogSimulator__init__, _calculate_system_t1.
  rewrite Hts. simpl.
  rewrite (sum_reciprocals_nonzero ts 0 (all_positive_nonzero ts Hpos)).
  simpl. rewrite Rplus_0_l.
  pose proof (reciprocal_sum_pos ts Hpos Hne) as Hs.
  rewrite truediv_ok by lra. reflexivity.
Qed.


(** A configuration whose list of T1 times has the declared length passes
    [__post_init__] unchanged. *)
Lemma simulate_checked (c : AnalogSimulatorConfig) (ts : list R) :
  qubit_t1_times c = Some ts ->
  Z.of_nat (length ts) = circuit_width c ->
  simulate c = AnalogSimulator__init__ c.
Proof.
  intros Hts Hlen. unfold simulate, AnalogSimulatorConfig__post_init__.
  rewrite Hts, Hlen, Z.eqb_refl. reflexivity.
Qed.


(** The system T1 of a list that is empty or holds a zero, in binary64:
    the division raises. *)
Lemma sum_reciprocals_zero_binary64 (ts : list PrimFloat.float) :
  Exists (fun t => PrimFloat.eqb t PrimFloat.zero = true) ts ->
  forall acc, Binary64.sum_reciprocals acc ts = None.
Proof.
  induction 1 as [t rest Ht | t rest _ IH]; intros acc;
    cbn [Binary64.sum_reciprocals];
    change (PrimFloat.eqb t _) with (PrimFloat.eqb t PrimFloat.zero).
  - now rewrite Ht.
  - destruct (PrimFloat.eqb t PrimFloat.zero); [reflexivity | apply IH].
Qed.



(** C5, the claim does not hold for a negative T1 time: a single qubit with
    a T1 of -100 us is constructed without any error and gets a system T1
    of -100 us. *)
Lemma negative_t1_accepted :
  Exists (fun t => t <= 0) [-100] /\
  qubit_t1_times negative_t1 = Some [-100] /\
  simulate negative_t1 =
    Ok {| config := negative_t1;
          _system_t1 := -100;
          _feasible_runtime := -100 |}.
Proof.
  split; [| split].
  - constructor. lra.
  - reflexivity.
  - rewrite (simulate_checked negative_t1 [-100]) by reflexivity.
    unfold AnalogSimulator__init__, _calculate_system_t1. simpl.
    rewrite (truediv_ok 1 (-100)) by lra. simpl.
    rewrite (truediv_ok 1 (0 + 1 / -100)) by lra. simpl.
    unfold _calculate_feasible_runtime. simpl.
    f_equal. f_equal; field.
Qed.

(** C5, as the code has it: when the list of T1 times is empty or
    contains a zero, computing the system T1 raises [ZeroDivisionError],
    and it does so inside [AnalogSimulator.__init__], so no simulator
    exists; this holds over the reals and in binary64, where [-0.0] is a
    zero too. *)
Theorem system_t1_zero_division :
  (forall (c : AnalogSimulatorConfig) (ts : list R),
      qubit_t1_times c = Some ts ->
      ts = [] \/ In 0 ts ->
      _calculate_system_t1 c = Raise ZeroDivisionError /\
      AnalogSimulator__init__ c = Raise ZeroDivisionError) /\
  (forall (ts : list PrimFloat.float) (m : PrimFloat.float),
      ts = [] \/
      Exists (fun t => PrimFloat.eqb t PrimFloat.zero = true) ts ->
      Binary64._calculate_system_t1 ts = None /\
      Binary64.AnalogSimulator__init__ ts m = Raise ZeroDivisionError).
Proof.
  split.
  - intros c ts Hts Hbad.
    assert (H : _calculate_system_t1 c = Raise ZeroDivisionError).
    { unfold _calculate_system_t1. rewrite Hts. cbn [need bind].
      destruct Hbad as [-> | Hin].
      - simpl. rewrite truediv_zero. reflexivity.
      - rewrite (sum_reciprocals_zero ts 0 Hin). reflexivity. }
    split; [exact H |].
    unfold AnalogSimulator__init__. rewrite H. reflexivity.
  - intros ts m Hbad.
    assert (H : Binary64._calculate_system_t1 ts = None).
    { unfold Binary64._calculate_system_t1. destruct Hbad as [-> | Hex].
      - vm_compute. reflexivity.
      - now rewrite (sum_reciprocals_zero_binary64 ts Hex). }
    split; [exact H |].
    unfold Binary64.AnalogSimulator__init__. rewrite H. reflexivity.
Qed.

Lemma system_t1_zero_division_witness :
  AnalogSimulator__init__ zero_t1 = Raise ZeroDivisionError.
Proof.
  apply (proj1 system_t1_zero_division zero_t1 [100; 0] eq_refl).
  right. simpl. right. left. reflexivity.
Defined.



(** C10: two configurations that differ in [measurement_error_rate] and
    [target_fidelity] only give the same result at every output, an
    exception included, and [get_total_error] is [get_decoherence_error]. *)
Theorem measurement_and_fidelity_ignored (c1 c2 : AnalogSimulatorConfig)
  (runtime : option R) :
  differ_only_in_measurement_and_fidelity c1 c2 ->
  observe c1 runtime = observe c2 runtime /\
  (forall (sim : AnalogSimulator) (r : option R),
      get_total_error sim r = get_decoherence_error sim r).
Proof.
  intros (Hw & Hts & Hd & Hm). split; [| reflexivity].
  destruct c1 as [w1 ts1 d1 m1 f1 k1], c2 as [w2 ts2 d2 m2 f2 k2].
  simpl in *. subst w2 ts2 d2 k2.
  unfold observe, simulate, AnalogSimulatorConfig__post_init__. simpl.
  destruct ts1 as [ts |]; simpl.
  - destruct (negb (Z.of_nat (length ts) =? w1)%Z); simpl; [reflexivity |].
    unfold AnalogSimulator__init__, _calculate_system_t1. simpl.
    destruct (sum_reciprocals 0 ts) as [s | e]; simpl; [| reflexivity].
    destruct (truediv 1 s) as [t | e]; simpl; reflexivity.
  - unfold AnalogSimulator__init__, _calculate_system_t1. simpl.
    destruct (sum_reciprocals 0 (repeat d1 (Z.to_nat w1))) as [s | e];
      simpl; [| reflexivity].
    destruct (truediv 1 s) as [t | e]; simpl; reflexivity.
Qed.

Lemma measurement_and_fidelity_ignored_witness :
  observe scenario_A (Some 10) =
  observe {| circuit_width := 5;
             qubit_t1_times := Some [100; 100; 100; 100; 100];
             default_t1 := 100;
             measurement_error_rate := 1 / 2;
             target_fidelity := 0;
             max_runtime_multiplier := 1 |} (Some 10).
Proof.
  apply (measurement_and_fidelity_ignored scenario_A).
  repeat split; reflexivity.
Defined.

End AnalogFacts.

(** ** The digital model *)

Module DigitalFacts.
Import digital_resource_estimator Reference DigitalReference DigitalInputs.

Lemma post_init_explicit (c : DigitalResourceConfig) (d : Z) :
  code_distance c = Some d ->
  DigitalResourceConfig__post_init__ c = Ok (resolved c d).
Proof.
  destruct c as [lq tr p pL cd qpl mt tg mf cf pg lgt ect].
  simpl. intros ->.
  unfold DigitalResourceConfig__post_init__, resolved.
  destruct qpl, lgt, ect; reflexivity.
Qed.

Lemma post_init_derived (c : DigitalResourceConfig) :
  code_distance c = None ->
  DigitalResourceConfig__post_init__ c =
    (d <- _calculate_code_distance c ;; Ok (resolved c d)).
Proof.
  destruct c as [lq tr p pL cd qpl mt tg mf cf pg lgt ect].
  simpl. intros ->.
  unfold DigitalResourceConfig__post_init__. cbn [code_distance].
  destruct (_calculate_code_distance _) as [d | e]; [| reflexivity].
  unfold resolved. destruct qpl, lgt, ect; reflexivity.
Qed.

(** Whenever [__post_init__] returns, it returns a resolved
    configuration. *)
Lemma post_init_resolved (c c' : DigitalResourceConfig) :
  DigitalResourceConfig__post_init__ c = Ok c' ->
  exists d,
    c' = resolved c d /\
    (code_distance c = Some d \/
     code_distance c = None /\ _calculate_code_distance c = Ok d).
Proof.
  intros H. destruct (code_distance c) as [d |] eqn:Hcd.
  - rewrite (post_init_explicit c d Hcd) in H. injection H as <-.
    exists d. split; [reflexivity | now left].
  - rewrite (post_init_derived c Hcd) in H.
    destruct (_calculate_code_distance c) as [d | e]; simpl in H;
      [| discriminate].
    injection H as <-. exists d. split; [reflexivity | now right].
Qed.


Lemma make_odd_bounds (d : Z) : (d <= make_odd d <= d + 1)%Z.
Proof. unfold make_odd. destruct (d mod 2 =? 0)%Z; lia. Qed.





(** Below the threshold the logarithm of [p_th / p] is positive. *)
Lemma log_ratio_pos (p : R) : 0 < p < p_th -> 0 < ln (p_th / p).
Proof.
  intros [Hp Hlt]. rewrite <- ln_1. apply ln_increasing; [lra |].
  apply (Rmult_lt_reg_r p); [exact Hp |].
  unfold Rdiv. rewrite Rmult_assoc, Rinv_l by lra. lra.
Qed.

(** On a positive error rate below the threshold and a positive target,
    the derivation returns the distance of the formula. *)
Lemma calculate_code_distance_formula (c : DigitalResourceConfig) :
  0 < digital_error_rate c < p_th ->
  0 < target_logical_error_rate c ->
  _calculate_code_distance c =
    Ok (code_distance_formula (digital_error_rate c)
          (target_logical_error_rate c)).
Proof.
  intros Hp HpL. pose proof (log_ratio_pos _ Hp) as Hlog.
  destruct Hp as [Hp Hlt].
  unfold _calculate_code_distance.
  destruct (Rge_dec _ _) as [Hge | _]; [lra |].
  rewrite truediv_ok by lra. simpl.
  rewrite truediv_ok by lra. simpl.
  assert (Hratio : 0 < p_th / digital_error_rate c).
  { apply Rdiv_lt_0_compat; [unfold p_th |]; lra. }
  assert (Hinv : 0 < 1 / target_logical_error_rate c).
  { apply Rdiv_lt_0_compat; lra. }
  unfold Np.log.
  destruct (Rlt_dec 0 (p_th / _)) as [_ | N]; [| contradiction].
  destruct (Rlt_dec 0 (1 / _)) as [_ | N]; [| contradiction].
  unfold Np.scale, Np.divide.
  destruct (Req_dec_T (ln (p_th / _)) 0) as [E | _]; [lra |].
  unfold Np.ceil, Np.to_int. rewrite int_of_float_IZR. simpl.
  reflexivity.
Qed.

(** What [_calculate_resources] stores when it returns, and when it does. *)
Lemma calculate_resources_inv (c : DigitalResourceConfig)
  (est : DigitalResourceEstimator) :
  _calculate_resources c = Ok est ->
  exists qpl lgt,
    qubits_per_logical c = Some qpl /\
    logical_gate_time c = Some lgt /\
    lgt <> 0 /\
    est =
      {| config := c;
         _data_qubits := logical_qubits c * qpl;
         _magic_state_qubits :=
           int_of_float
             (IZR (t_gate_count c) * magic_state_overhead_factor c * IZR qpl);
         _compilation_qubits :=
           int_of_float
             (IZR (logical_qubits c * qpl)
              * (compilation_overhead_factor c - 1));
         _total_physical_qubits :=
           logical_qubits c * qpl
           + int_of_float
               (IZR (t_gate_count c) * magic_state_overhead_factor c
                * IZR qpl)
           + int_of_float
               (IZR (logical_qubits c * qpl)
                * (compilation_overhead_factor c - 1));
         _space_time_volume :=
           IZR (logical_qubits c * qpl
                + int_of_float
                    (IZR (t_gate_count c) * magic_state_overhead_factor c
                     * IZR qpl)
                + int_of_float
                    (IZR (logical_qubits c * qpl)
                     * (compilation_overhead_factor c - 1)))
           * target_runtime c;
         _logical_gate_count := int_of_float (target_runtime c / lgt) |}%Z.
Proof.
  unfold _calculate_resources.
  destruct (qubits_per_logical c) as [qpl |]; simpl; [| discriminate].
  destruct (logical_gate_time c) as [lgt |]; simpl; [| discriminate].
  destruct (truediv_cases (target_runtime c) lgt) as [[_ ->] | [Hnz ->]];
    simpl; [discriminate |].
  intros [= <-]. exists qpl, lgt. repeat split. exact Hnz.
Qed.


Lemma calculate_resources_returns (c : DigitalResourceConfig)
  (qpl : Z) (lgt : R) :
  qubits_per_logical c = Some qpl ->
  logical_gate_time c = Some lgt ->
  lgt <> 0 ->
  returns (_calculate_resources c).
Proof.
  intros Hq Hl Hnz. unfold _calculate_resources. rewrite Hq, Hl. simpl.
  rewrite truediv_ok by exact Hnz. simpl. eexists. reflexivity.
Qed.



(** With a supplied distance the estimator is computed on the resolved
    configuration. *)
Lemma estimate_explicit (c : DigitalResourceConfig) (d : Z) :
  code_distance c = Some d ->
  estimate c = _calculate_resources (resolved c d).
Proof.
  intros Hcd. unfold estimate. rewrite (post_init_explicit c d Hcd).
  reflexivity.
Qed.

(** Scenario B of the specification: the derived distance is 11. *)
Lemma scenario_B_distance :
  code_distance_formula (1 / 10000) (1 / 10 ^ 10) = 11%Z.
Proof.
  unfold code_distance_formula, p_th.
  assert (H10 : 0 < ln 10).
  { rewrite <- ln_1. apply ln_increasing; lra. }
  replace (1 / (1 / 10 ^ 10)) with (10 ^ 10) by (field; lra).
  replace (1 / 100 / (1 / 10000)) with (10 ^ 2) by field.
  rewrite !ln_pow by lra.
  replace (2 * (INR 10 * ln 10) / (INR 2 * ln 10)) with (IZR 10)
    by (simpl; field; lra).
  rewrite (Zceil_eq 10 (IZR 10)) by lra.
  reflexivity.
Qed.

Lemma scenario_B_post_init :
  DigitalResourceConfig__post_init__ scenario_B = Ok (resolved scenario_B 11).
Proof.
  rewrite (post_init_derived scenario_B eq_refl).
  rewrite calculate_code_distance_formula.
  - cbn [scenario_B digital_error_rate target_logical_error_rate].
    rewrite scenario_B_distance. reflexivity.
  - unfold p_th. simpl. lra.
  - simpl. lra.
Qed.

Lemma estimate_scenario_B_returns : returns (estimate scenario_B).
Proof.
  unfold estimate. rewrite scenario_B_post_init. cbn [bind].
  apply (calculate_resources_returns (resolved scenario_B 11)
           (2 * 11 ^ 2) (11 * (1 / 10))); [reflexivity | reflexivity | lra].
Qed.

(** Scenario B in full: distance 11, [2 * 11^2] qubits per logical qubit,
    and a wall-clock time of 1.89 us for 0.5 us of logical time. *)
Lemma scenario_B_resolved :
  exists est,
    estimate scenario_B = Ok est /\
    code_distance (config est) = Some 11%Z /\
    qubits_per_logical (config est) = Some (2 * 11 ^ 2)%Z /\
    get_wall_clock_time est = Ok (189 / 100) /\
    1 / 2 <= 189 / 100.
Proof.
  destruct estimate_scenario_B_returns as [est Hest]. exists est.
  split; [exact Hest |].
  unfold estimate in Hest. rewrite scenario_B_post_init in Hest.
  cbn [bind] in Hest.
  destruct (calculate_resources_inv _ est Hest) as (q & l & _ & _ & _ & ->).
  cbn [config]. repeat split; try reflexivity.
  - unfold get_wall_clock_time. cbn. f_equal. field.
  - lra.
Qed.

(** C1, the claim does not hold with [code_distance] supplied: an error
    rate of 0.02 with [code_distance=5] is constructed without error, with
    [qubits_per_logical = 50] and both gate times [5 * 0.1]. *)
Lemma above_threshold_explicit_accepted :
  digital_error_rate above_threshold_explicit >= p_th /\
  DigitalResourceConfig__post_init__ above_threshold_explicit =
    Ok (resolved above_threshold_explicit 5) /\
  qubits_per_logical (resolved above_threshold_explicit 5) = Some 50%Z /\
  logical_gate_time (resolved above_threshold_explicit 5)
  = Some (5 * (1 / 10)).
Proof.
  split; [| split; [| split]].
  - unfold p_th. simpl. lra.
  - apply post_init_explicit. reflexivity.
  - reflexivity.
  - reflexivity.
Qed.

(** C1, as the code has it: with [code_distance] unset, an error rate at or
    above the threshold 0.01 makes [__post_init__] raise [ValueError] at its
    first step, so no configuration and no estimator exist. *)
Theorem above_threshold_raises_unset (c : DigitalResourceConfig) :
  code_distance c = None ->
  digital_error_rate c >= p_th ->
  _calculate_code_distance c = Raise ValueError /\
  DigitalResourceConfig__post_init__ c = Raise ValueError /\
  estimate c = Raise ValueError.
Proof.
  intros Hcd Hp.
  assert (H : _calculate_code_distance c = Raise ValueError).
  { unfold _calculate_code_distance.
    destruct (Rge_dec _ _) as [_ | N]; [reflexivity | contradiction]. }
  assert (H' : DigitalResourceConfig__post_init__ c = Raise ValueError).
  { rewrite (post_init_derived c Hcd), H. reflexivity. }
  repeat split; try assumption.
  unfold estimate. rewrite H'. reflexivity.
Qed.

Lemma above_threshold_raises_unset_witness :
  _calculate_code_distance scenario_C = Raise ValueError /\
  DigitalResourceConfig__post_init__ scenario_C = Raise ValueError /\
  estimate scenario_C = Raise ValueError.
Proof.
  apply (above_threshold_raises_unset scenario_C).
  - reflexivity.
  - unfold p_th. simpl. lra.
Defined.



(** C6, the claim does not hold: with one T gate, overhead factors 0.1 and
    1.1 and distance 3 both products are 1.8, both qubit counts are 1, and
    1 is not a nearest integer of 1.8. *)
Lemma fractional_overheads_truncated :
  exists est,
    estimate fractional_overheads = Ok est /\
    qubits_per_logical (config est) = Some 18%Z /\
    data_qubits est = 18%Z /\
    magic_state_qubits est = 1%Z /\
    ~ nearest_integer (IZR 1 * (1 / 10) * IZR 18) 1 /\
    compilation_qubits est = 1%Z /\
    ~ nearest_integer (IZR 18 * (11 / 10 - 1)) 1.
Proof.
  assert (Hfloor : forall x, 1 <= x < 2 -> int_of_float x = 1%Z).
  { intros x Hx. rewrite int_of_float_nonneg by lra.
    apply Zfloor_eq. simpl. lra. }
  destruct (calculate_resources_returns (resolved fractional_overheads 3)
              18 (3 * (1 / 10)) eq_refl eq_refl ltac:(lra)) as [est Hest].
  exists est. rewrite (estimate_explicit fractional_overheads 3 eq_refl).
  split; [exact Hest |].
  destruct (calculate_resources_inv _ est Hest)
    as (qpl & lgt & [= <-] & _ & _ & ->).
  unfold data_qubits, magic_state_qubits, compilation_qubits.
  cbn [config _data_qubits _magic_state_qubits _compilation_qubits
       resolved fractional_overheads logical_qubits t_gate_count
       magic_state_overhead_factor compilation_overhead_factor
       qubits_per_logical].
  change (2 * 3 ^ 2)%Z with 18%Z. change (1 * 18)%Z with 18%Z.
  repeat split.
  - apply Hfloor. lra.
  - unfold nearest_integer. intros H.
    rewrite Rabs_right in H by lra. lra.
  - apply Hfloor. lra.
  - unfold nearest_integer. intros H.
    rewrite Rabs_right in H by lra. lra.
Qed.

End DigitalFacts.

(** ** The comparison *)

Module ReportFacts.
Import report_generator Reference AnalogInputs.

(** A safety fraction of zero leaves no feasible runtime. *)
Lemma zero_multiplier_zero_runtime (c : analog_simulator.AnalogSimulatorConfig)
  (sim : analog_simulator.AnalogSimulator) :
  analog_simulator.AnalogSimulator__init__ c = Ok sim ->
  analog_simulator.max_runtime_multiplier c = 0 ->
  analog_simulator.feasible_runtime sim = 0.
Proof.
  unfold analog_simulator.AnalogSimulator__init__.
  destruct (analog_simulator._calculate_system_t1 c) as [t | e]; simpl;
    [| discriminate].
  intros [= <-] Hm. unfold analog_simulator.feasible_runtime. simpl.
  unfold analog_simulator._calculate_feasible_runtime. rewrite Hm. ring.
Qed.

(** C7: when the feasible runtime of the analog simulator is 0, the
    comparison section raises [ZeroDivisionError] at the runtime ratio, and
    so the report is not produced, whatever the sections before it do. *)
Theorem zero_feasible_runtime_raises
  (analog_section digital_section : Type)
  (analog_simulation :
     analog_simulator.AnalogSimulator -> result analog_section)
  (digital_fault_tolerant :
     digital_resource_estimator.DigitalResourceEstimator ->
     result digital_section)
  (analog_sim : analog_simulator.AnalogSimulator)
  (digital_est : digital_resource_estimator.DigitalResourceEstimator) :
  analog_simulator.feasible_runtime analog_sim = 0 ->
  comparison_section analog_sim digital_est = Raise ZeroDivisionError /\
  raises
    (generate_comparison_report analog_section digital_section
       analog_simulation digital_fault_tolerant analog_sim digital_est).
Proof.
  intros Hz.
  assert (Hc : comparison_section analog_sim digital_est
               = Raise ZeroDivisionError).
  { unfold comparison_section. rewrite Hz, truediv_zero. reflexivity. }
  split; [exact Hc |].
  unfold generate_comparison_report, raises.
  destruct (analog_simulation analog_sim) as [a | e]; simpl;
    [| eexists; reflexivity].
  destruct (digital_fault_tolerant digital_est) as [d | e]; simpl;
    [| eexists; reflexivity].
  rewrite Hc. simpl. eexists. reflexivity.
Qed.

Lemma zero_feasible_runtime_raises_witness :
  exists sim,
    analog_simulator.AnalogSimulator__init__ zero_multiplier = Ok sim /\
    forall est, comparison_section sim est = Raise ZeroDivisionError.
Proof.
  eexists. split.
  - apply (AnalogFacts.init_positive zero_multiplier
             [100; 100; 100; 100; 100]);
      [reflexivity | AnalogFacts.positive_list | discriminate].
  - intros est.
    apply (zero_feasible_runtime_raises unit unit
             (fun _ => Ok tt) (fun _ => Ok tt)).
    unfold analog_simulator.feasible_runtime. simpl. ring.
Defined.

End ReportFacts.

(** ** The program in binary64 arithmetic *)

Module Binary64Facts.
Import PrimFloat SpecFloat FloatOps FloatAxioms Binary64 Binary64Inputs.
Set Warnings "-inexact-float".

(** *** Floats and integers *)

Lemma powerRZ_2_nonneg (e : Z) : (0 <= e)%Z -> powerRZ 2 e = IZR (2 ^ e).
Proof.
  intros He. rewrite <- (Z2Nat.id e He) at 1. rewrite <- pow_powerRZ.
  rewrite <- (Z2Nat.id e He) at 2. rewrite <- pow_IZR. reflexivity.
Qed.

Lemma powerRZ_2_neg (k : positive) : powerRZ 2 (Zneg k) = / IZR (2 ^ Zpos k).
Proof. unfold powerRZ. now rewrite pow_IZR, positive_nat_Z. Qed.

(** The quotient and the remainder of a mantissa by a power of two, over
    the reals. *)
Lemma mantissa_div (m k : positive) :
  let q := (Zpos m / 2 ^ Zpos k)%Z in
  let r := (Zpos m mod 2 ^ Zpos k)%Z in
  IZR (Zpos m) * powerRZ 2 (Zneg k) = IZR q + IZR r / IZR (2 ^ Zpos k) /\
  0 <= IZR r / IZR (2 ^ Zpos k) < 1 /\
  (r = 0%Z <-> IZR r / IZR (2 ^ Zpos k) = 0) /\ (0 <= q)%Z.
Proof.
  intros q r.
  assert (Hp : (0 < 2 ^ Zpos k)%Z) by (apply Z.pow_pos_nonneg; lia).
  pose proof (Z.div_mod (Zpos m) (2 ^ Zpos k) ltac:(lia)) as Hdm.
  pose proof (Z.mod_pos_bound (Zpos m) (2 ^ Zpos k) Hp) as Hb.
  fold q r in Hdm, Hb.
  assert (HP : 0 < IZR (2 ^ Zpos k)) by (now apply IZR_lt).
  assert (Hr0 : 0 <= IZR r) by (apply IZR_le; lia).
  assert (Hr1 : IZR r < IZR (2 ^ Zpos k)) by (apply IZR_lt; lia).
  rewrite powerRZ_2_neg. split; [| split; [| split]].
  - rewrite Hdm at 1. rewrite plus_IZR, mult_IZR. field. lra.
  - split.
    + unfold Rdiv. apply Rmult_le_pos; [exact Hr0 |].
      left. now apply Rinv_0_lt_compat.
    + apply (Rmult_lt_reg_r (IZR (2 ^ Zpos k))); [exact HP |].
      unfold Rdiv. rewrite Rmult_assoc, Rinv_l by lra. lra.
  - split.
    + intros ->. unfold Rdiv. now rewrite Rmult_0_l.
    + intros H. apply (Rmult_eq_compat_r (IZR (2 ^ Zpos k))) in H.
      unfold Rdiv in H. rewrite Rmult_assoc, Rinv_l, Rmult_0_l in H by lra.
      apply eq_IZR. lra.
  - apply Z.div_pos; lia.
Qed.

Lemma floor_scaled_spec (m : positive) (e : Z) :
  let v := IZR (Zpos m) * powerRZ 2 e in
  (0 <= floor_scaled m e)%Z /\
  IZR (floor_scaled m e) <= v < IZR (floor_scaled m e) + 1.
Proof.
  intros v. unfold v, floor_scaled. destruct e as [| p | k].
  - rewrite Z.pow_0_r, Z.mul_1_r. simpl powerRZ. split; [lia | lra].
  - rewrite powerRZ_2_nonneg by lia. rewrite mult_IZR. split; [| lra].
    apply Z.mul_nonneg_nonneg; [lia |]. apply Z.pow_nonneg. lia.
  - destruct (mantissa_div m k) as (Hv & Hr & _ & Hq).
    split; [exact Hq |]. rewrite Hv. lra.
Qed.


Lemma value_negative (m : positive) (e : Z) :
  IZR (Zneg m) * powerRZ 2 e = - (IZR (Zpos m) * powerRZ 2 e).
Proof. change (IZR (Zneg m)) with (- IZR (Zpos m)). ring. Qed.

(** [int(x)] returns on the finite floats, with the integer part of the
    value of [x]. *)
Lemma int_of_float_truncates (x : float) (n : Z) :
  int_of_float x = Ok n ->
  finite x = true /\ DigitalReference.truncation (value x) n.
Proof.
  unfold int_of_float, finite, value, DigitalReference.truncation.
  destruct (Prim2SF x) as [s | s | | s m e]; try discriminate.
  - intros H. injection H as <-. split; [reflexivity |]. simpl. lra.
  - intros H. injection H as <-. split; [reflexivity |].
    destruct (floor_scaled_spec m e) as [H0 Hb]. apply IZR_le in H0.
    destruct s.
    + rewrite value_negative, opp_IZR. lra.
    + lra.
Qed.



(** *** The conversion of integers *)





(** *** IEEE comparisons *)




(** *** The digital model *)





(** What [_calculate_resources] stores when it returns. *)
Lemma resources_inv (c : DigitalResourceConfig)
  (est : DigitalResourceEstimator) :
  _calculate_resources c = Ok est ->
  exists qpl ft fq fdq lgt,
    qubits_per_logical c = Some qpl /\
    logical_gate_time c = Some lgt /\
    float_of_int (t_gate_count c) = Ok ft /\
    float_of_int qpl = Ok fq /\
    float_of_int (logical_qubits c * qpl) = Ok fdq /\
    config est = c /\
    _data_qubits est = (logical_qubits c * qpl)%Z /\
    int_of_float (ft * magic_state_overhead_factor c * fq)%float
    = Ok (_magic_state_qubits est) /\
    int_of_float (fdq * (compilation_overhead_factor c - 1))%float
    = Ok (_compilation_qubits est) /\
    _total_physical_qubits est =
      (_data_qubits est + _magic_state_qubits est
       + _compilation_qubits est)%Z /\
    (lgt =? 0)%float = false /\
    int_of_float (target_runtime c / lgt)%float
    = Ok (_logical_gate_count est) /\
    int_times_float (_total_physical_qubits est) (target_runtime c)
    = Ok (_space_time_volume est).
Proof.
  unfold _calculate_resources, truediv.
  destruct (qubits_per_logical c) as [qpl |]; cbn [need bind];
    [| discriminate].
  destruct (float_of_int (t_gate_count c)) as [ft | e] eqn:Hft;
    cbn [bind]; [| discriminate].
  destruct (float_of_int qpl) as [fq | e] eqn:Hfq; cbn [bind];
    [| discriminate].
  destruct (int_of_float (ft * _ * fq)%float) as [magic | e] eqn:Hm;
    cbn [bind]; [| discriminate].
  destruct (float_of_int (logical_qubits c * qpl)) as [fdq | e] eqn:Hfdq;
    cbn [bind]; [| discriminate].
  destruct (int_of_float (fdq * _)%float) as [comp | e] eqn:Hc;
    cbn [bind]; [| discriminate].
  destruct (logical_gate_time c) as [lgt |]; cbn [need bind];
    [| discriminate].
  destruct (lgt =? 0)%float eqn:Hz; cbn [bind]; [discriminate |].
  destruct (int_of_float (target_runtime c / lgt)%float) as [n | e] eqn:Hn;
    cbn [bind]; [| discriminate].
  destruct (int_times_float _ (target_runtime c)) as [v | e] eqn:Hv;
    cbn [bind]; [| discriminate].
  intros H. injection H as <-. cbn.
  exists qpl, ft, fq, fdq, lgt. repeat split; assumption.
Qed.

(** *** The claims that depend on rounding *)






(** C6, as the code has it: both qubit counts are [int] of a product of
    floats, each multiplication rounded to binary64 and each integer
    converted to a float first; [int] drops the digits after the point, so
    each count is the integer part of the value of its product, not a
    nearest integer. *)
Theorem overhead_qubits_truncated (c : DigitalResourceConfig)
  (est : DigitalResourceEstimator) :
  DigitalResourceEstimator__init__ c = Ok est ->
  exists qpl ft fq fdq,
    qubits_per_logical c = Some qpl /\
    data_qubits est = (logical_qubits c * qpl)%Z /\
    float_of_int (t_gate_count c) = Ok ft /\
    float_of_int qpl = Ok fq /\
    float_of_int (data_qubits est) = Ok fdq /\
    int_of_float (ft * magic_state_overhead_factor c * fq)%float
    = Ok (magic_state_qubits est) /\
    DigitalReference.truncation
      (value (ft * magic_state_overhead_factor c * fq)%float)
      (magic_state_qubits est) /\
    int_of_float (fdq * (compilation_overhead_factor c - 1))%float
    = Ok (compilation_qubits est) /\
    DigitalReference.truncation
      (value (fdq * (compilation_overhead_factor c - 1))%float)
      (compilation_qubits est) /\
    total_physical_qubits est =
      (data_qubits est + magic_state_qubits est + compilation_qubits est)%Z.
Proof.
  intros H. unfold DigitalResourceEstimator__init__ in H.
  destruct (resources_inv c est H)
    as (qpl & ft & fq & fdq & lgt & Hq & _ & Hft & Hfq & Hfdq & _ & Hd
        & Hm & Hc & Ht & _).
  exists qpl, ft, fq, fdq.
  unfold data_qubits, magic_state_qubits, compilation_qubits,
    total_physical_qubits.
  rewrite Hd.
  split; [exact Hq |]. split; [reflexivity |].
  split; [exact Hft |]. split; [exact Hfq |]. split; [exact Hfdq |].
  split; [exact Hm |].
  split; [apply (int_of_float_truncates _ _ Hm) |].
  split; [exact Hc |].
  split; [apply (int_of_float_truncates _ _ Hc) |].
  rewrite Ht, Hd. reflexivity.
Qed.

Lemma overhead_qubits_truncated_witness :
  exists est,
    DigitalResourceEstimator__init__ (resolved fractional_overheads 3 3)
    = Ok est /\
    magic_state_qubits est = 1%Z /\
    compilation_qubits est = 1%Z /\
    DigitalReference.truncation (value (1 * 0.1 * 18)%float)
      (magic_state_qubits est) /\
    DigitalReference.truncation (value (18 * (1.1 - 1))%float)
      (compilation_qubits est).
Proof.
  assert (H : { est | DigitalResourceEstimator__init__
                        (resolved fractional_overheads 3 3) = Ok est /\
                      magic_state_qubits est = 1%Z /\
                      compilation_qubits est = 1%Z }).
  { eexists. split; [vm_compute; reflexivity |]. split; reflexivity. }
  destruct H as (est & Hest & Hm & Hc). exists est.
  split; [exact Hest |]. split; [exact Hm |]. split; [exact Hc |].
  destruct (overhead_qubits_truncated _ est Hest)
    as (qpl & ft & fq & fdq & Hq & Hd & Hft & Hfq & Hfdq & _ & Tm & _ & Tc
        & _).
  injection Hq as <-. rewrite Hd in Hfdq.
  vm_compute in Hft, Hfq, Hfdq.
  injection Hft as <-. injection Hfq as <-. injection Hfdq as <-.
  split; [exact Tm | exact Tc].
Defined.



(** *** The scenarios and the separating inputs *)

(** Five qubits with a T1 of 100 us each and a multiplier of 1.0: the
    system T1 and the feasible runtime computed from it are both the float
    20.0, under Python's [==]. *)
Lemma scenario_A_binary64 :
  match _calculate_system_t1 (repeat 100%float 5) with
  | Some t =>
      PrimFloat.eqb t 20%float
      && PrimFloat.eqb (_calculate_feasible_runtime t 1%float) 20%float
  | None => false
  end = true.
Proof. vm_compute. reflexivity. Qed.



(** The inputs that separate the code from the specification do so in
    binary64 as well: a T1 of -100.0 gives a system T1 of -100.0, and the
    two products 1 * 0.1 * 18 and 18 * (1.1 - 1.0) truncate to 1. *)
Lemma separating_inputs_binary64 :
  is_float (_calculate_system_t1 [(-100)%float]) (-100)%float = true /\
  truncates_to_one (magic_state_product 1 0.1 18)%float = true /\
  truncates_to_one (compilation_product 18 1.1)%float = true.
Proof. repeat split; vm_compute; reflexivity. Qed.

End Binary64Facts.

(** ** Further properties of the analog model *)

Module AnalogExtras.
Import analog_simulator Reference AnalogInputs ExtraInputs AnalogFacts.

Lemma reciprocal_sum_repeat (t : R) (n : nat) :
  t <> 0 -> reciprocal_sum (repeat t n) = INR n / t.
Proof.
  intros Ht. rewrite (reciprocal_sum_uniform (repeat t n) t Ht).
  - now rewrite repeat_length.
  - intros x Hx. now apply repeat_spec in Hx.
Qed.


(** What [_calculate_system_t1] answers on any list. *)
Lemma calculate_system_t1_cases (c : AnalogSimulatorConfig) (ts : list R) :
  qubit_t1_times c = Some ts ->
  _calculate_system_t1 c =
    if in_dec Req_dec_T 0 ts then Raise ZeroDivisionError
    else truediv 1 (reciprocal_sum ts).
Proof.
  intros Hts. unfold _calculate_system_t1. rewrite Hts. cbn [need bind].
  destruct (in_dec Req_dec_T 0 ts) as [Hin | Hnin].
  - now rewrite (sum_reciprocals_zero ts 0 Hin).
  - rewrite (sum_reciprocals_nonzero ts 0)
      by (apply Forall_forall; intros t Ht ->; contradiction).
    cbn [bind]. now rewrite Rplus_0_l.
Qed.

(** X1: [AnalogSimulatorConfig.__post_init__] raises, with [ValueError],
    exactly when a list of T1 times is given whose length is not
    [circuit_width]; when it returns, the list is present, a given list is
    kept as it is, a missing one is [max(circuit_width, 0)] copies of
    [default_t1], and no other field changes. *)
Theorem config_post_init_shape (c : AnalogSimulatorConfig) :
  (forall l, qubit_t1_times c = Some l ->
             Z.of_nat (length l) <> circuit_width c ->
             AnalogSimulatorConfig__post_init__ c = Raise ValueError) /\
  (qubit_t1_times c = None \/
   (exists l, qubit_t1_times c = Some l /\
              Z.of_nat (length l) = circuit_width c) ->
   exists ts,
     AnalogSimulatorConfig__post_init__ c = Ok (with_qubit_t1_times c ts) /\
     Z.of_nat (length ts) = Z.max 0 (circuit_width c) /\
     (forall l, qubit_t1_times c = Some l -> ts = l) /\
     (qubit_t1_times c = None ->
      ts = repeat (default_t1 c) (Z.to_nat (circuit_width c)))).
Proof.
  unfold AnalogSimulatorConfig__post_init__. split.
  - intros l Hl Hne. rewrite Hl.
    destruct (Z.eqb_spec (Z.of_nat (length l)) (circuit_width c));
      [contradiction | reflexivity].
  - intros [Hnone | (l & Hl & Hlen)].
    + rewrite Hnone. eexists. split; [reflexivity |].
      split; [rewrite repeat_length; lia |].
      split; [intros l [=] | reflexivity].
    + rewrite Hl, Hlen, Z.eqb_refl. cbn [negb]. exists l.
      split; [destruct c; simpl in *; now subst |].
      split; [lia |]. split; [now intros l' [= ->] | intros [=]].
Qed.

Lemma config_post_init_shape_witness :
  exists ts,
    AnalogSimulatorConfig__post_init__ (default_qubits 3 100 1) =
      Ok (with_qubit_t1_times (default_qubits 3 100 1) ts) /\
    Z.of_nat (length ts) = 3%Z.
Proof.
  destruct (proj2 (config_post_init_shape (default_qubits 3 100 1))
              (or_introl eq_refl)) as (ts & H1 & H2 & _).
  exists ts. split; [exact H1 | exact H2].
Defined.

(** X2: without a list of T1 times, a simulator of [n > 0] qubits with a
    non-zero [default_t1] is constructed with [system_t1 = default_t1 / n]
    and [feasible_runtime = system_t1 * max_runtime_multiplier]; with
    [n <= 0] or [default_t1 = 0] construction raises
    [ZeroDivisionError]. *)
Theorem default_t1_simulator (c : AnalogSimulatorConfig) :
  qubit_t1_times c = None ->
  (0 < circuit_width c)%Z /\ default_t1 c <> 0 ->
  exists sim,
    simulate c = Ok sim /\
    system_t1 sim = default_t1 c / IZR (circuit_width c) /\
    feasible_runtime sim =
      default_t1 c / IZR (circuit_width c) * max_runtime_multiplier c.
Proof.
  intros Hnone [Hw Ht].
  unfold simulate, AnalogSimulatorConfig__post_init__. rewrite Hnone.
  cbn [bind]. set (n := Z.to_nat (circuit_width c)).
  assert (Hn : INR n = IZR (circuit_width c)).
  { unfold n. rewrite INR_IZR_INZ, Z2Nat.id by lia. reflexivity. }
  assert (Hpos : 0 < IZR (circuit_width c)) by (apply IZR_lt; exact Hw).
  unfold AnalogSimulator__init__.
  rewrite (calculate_system_t1_cases
             (with_qubit_t1_times c (repeat (default_t1 c) n))
             (repeat (default_t1 c) n) eq_refl).
  destruct (in_dec Req_dec_T 0 (repeat (default_t1 c) n)) as [Hin | _].
  { apply repeat_spec in Hin. now elim Ht. }
  rewrite (reciprocal_sum_repeat _ n Ht), Hn.
  rewrite truediv_ok
    by (unfold Rdiv; apply Rmult_integral_contrapositive_currified;
        [lra | now apply Rinv_neq_0_compat]).
  cbn [bind]. eexists. split; [reflexivity |].
  unfold system_t1, feasible_runtime, _calculate_feasible_runtime.
  cbn [_system_t1 _feasible_runtime with_qubit_t1_times
       max_runtime_multiplier].
  assert (E : 1 / (IZR (circuit_width c) / default_t1 c)
              = default_t1 c / IZR (circuit_width c))
    by (field; split; [lra | exact Ht]).
  rewrite E. split; reflexivity.
Qed.

Lemma default_t1_simulator_witness :
  exists sim,
    simulate (default_qubits 4 100 1) = Ok sim /\
    system_t1 sim = 100 / 4.
Proof.
  destruct (default_t1_simulator (default_qubits 4 100 1) eq_refl)
    as (sim & H1 & H2 & _).
  - split; [reflexivity | simpl; lra].
  - exists sim. split; [exact H1 | exact H2].
Defined.

(** X3: without a list of T1 times, constructing a simulator of
    [circuit_width <= 0] qubits, or with [default_t1 = 0], raises
    [ZeroDivisionError]: nothing checks the width. *)
Theorem default_t1_zero_division (c : AnalogSimulatorConfig) :
  qubit_t1_times c = None ->
  (circuit_width c <= 0)%Z \/ default_t1 c = 0 ->
  simulate c = Raise ZeroDivisionError.
Proof.
  intros Hnone Hbad.
  unfold simulate, AnalogSimulatorConfig__post_init__. rewrite Hnone.
  cbn [bind]. unfold AnalogSimulator__init__.
  rewrite (calculate_system_t1_cases
             (with_qubit_t1_times c _) _ eq_refl).
  destruct (in_dec Req_dec_T 0 _) as [_ | Hnin]; [reflexivity |].
  destruct (Z.to_nat (circuit_width c)) as [| k] eqn:Hk.
  - simpl. unfold reciprocal_sum. simpl. now rewrite truediv_zero.
  - destruct Hbad as [Hw | Ht]; [lia |].
    elim Hnin. rewrite Ht. simpl. now left.
Qed.

Lemma default_t1_zero_division_witness :
  simulate (default_qubits 0 100 1) = Raise ZeroDivisionError.
Proof.
  apply default_t1_zero_division; [reflexivity | left; simpl; lia].
Defined.







(** X7: adding a qubit with a positive T1 time to a non-empty register of
    positive T1 times never gives a larger [system_t1]. *)
Theorem one_more_qubit_shortens_t1 (c c' : AnalogSimulatorConfig)
  (t : R) (ts : list R) :
  qubit_t1_times c = Some ts ->
  qubit_t1_times c' = Some (t :: ts) ->
  all_positive (t :: ts) -> ts <> [] ->
  exists s s',
    AnalogSimulator__init__ c = Ok s /\
    AnalogSimulator__init__ c' = Ok s' /\
    system_t1 s' <= system_t1 s.
Proof.
  intros Hc Hc' Hpos Hne.
  assert (Hpos' : all_positive ts) by (inversion Hpos; assumption).
  assert (Ht : 0 < t) by (inversion Hpos; assumption).
  pose proof (reciprocal_sum_pos ts Hpos' Hne) as Hs.
  pose proof (Rinv_0_lt_compat t Ht) as Hit.
  do 2 eexists.
  split; [apply (init_positive c ts Hc Hpos' Hne) |].
  split; [apply (init_positive c' (t :: ts) Hc' Hpos); discriminate |].
  unfold system_t1. cbn [_system_t1].
  change (reciprocal_sum (t :: ts)) with (/ t + reciprocal_sum ts).
  unfold Rdiv. rewrite !Rmult_1_l.
  apply Rinv_le_contravar; lra.
Qed.

Lemma one_more_qubit_shortens_t1_witness :
  exists s s',
    AnalogSimulator__init__ (register [100; 200]) = Ok s /\
    AnalogSimulator__init__ (register [50; 100; 200]) = Ok s' /\
    system_t1 s' <= system_t1 s.
Proof.
  apply (one_more_qubit_shortens_t1 _ _ 50 [100; 200]);
    [reflexivity | reflexivity | positive_list | discriminate].
Defined.

End AnalogExtras.

(** ** Further properties of the digital model *)

Module DigitalExtras.
Import digital_resource_estimator Reference DigitalReference DigitalInputs.
Import ExtraInputs DigitalFacts PyNum.

Lemma float_pow_pos (v w : R) :
  0 < v -> float_pow v w = Ok (Float (Rpower v w)).
Proof.
  intros Hv. unfold float_pow.
  destruct (Req_dec_T w 0) as [-> | _].
  - now rewrite Rpower_O.
  - destruct (Req_dec_T v 0) as [E | _]; [lra |].
    destruct (Rlt_dec v 0) as [E | _]; [lra | reflexivity].
Qed.

(** On a positive error rate the logical error rate is the float
    [0.1 * (p / p_th) ** ((d + 1) / 2)]. *)
Lemma logical_error_rate_pos (est : DigitalResourceEstimator) (d : Z) :
  code_distance (config est) = Some d ->
  0 < digital_error_rate (config est) ->
  get_logical_error_rate est =
    Ok (Float (1 / 10 * Rpower (digital_error_rate (config est) / p_th)
                          ((IZR d + 1) / 2))).
Proof.
  intros Hd Hp. unfold get_logical_error_rate. rewrite Hd. cbn [need bind].
  rewrite truediv_ok by (unfold p_th; lra). cbn [bind].
  rewrite float_pow_pos by (apply Rdiv_lt_0_compat; unfold p_th; lra).
  reflexivity.
Qed.


(** X9: [__post_init__] fills what is missing and nothing else: when it
    returns, a supplied [code_distance], [qubits_per_logical],
    [logical_gate_time] or [error_correction_cycle_time] is kept, all four
    are set, the other fields are unchanged, and running it again on the
    result changes nothing. *)
Theorem post_init_idempotent (c c' : DigitalResourceConfig) :
  DigitalResourceConfig__post_init__ c = Ok c' ->
  DigitalResourceConfig__post_init__ c' = Ok c' /\
  (forall d, code_distance c = Some d -> code_distance c' = Some d) /\
  (forall q, qubits_per_logical c = Some q ->
             qubits_per_logical c' = Some q) /\
  (forall t, logical_gate_time c = Some t ->
             logical_gate_time c' = Some t) /\
  (forall t, error_correction_cycle_time c = Some t ->
             error_correction_cycle_time c' = Some t) /\
  (exists d q t u,
      code_distance c' = Some d /\ qubits_per_logical c' = Some q /\
      logical_gate_time c' = Some t /\
      error_correction_cycle_time c' = Some u) /\
  logical_qubits c' = logical_qubits c /\
  target_runtime c' = target_runtime c /\
  digital_error_rate c' = digital_error_rate c /\
  target_logical_error_rate c' = target_logical_error_rate c /\
  t_gate_count c' = t_gate_count c /\
  magic_state_overhead_factor c' = magic_state_overhead_factor c /\
  compilation_overhead_factor c' = compilation_overhead_factor c /\
  physical_gate_time c' = physical_gate_time c.
Proof.
  intros H. destruct (post_init_resolved c c' H) as (d & -> & Hd).
  split; [apply (post_init_explicit (resolved c d) d eq_refl) |].
  split.
  { intros d0 Hd0. destruct Hd as [Hd | [Hd _]]; [| congruence].
    cbn. congruence. }
  split; [intros q Hq; cbn; now rewrite Hq |].
  split; [intros t Ht; cbn; now rewrite Ht |].
  split; [intros t Ht; cbn; now rewrite Ht |].
  split; [do 4 eexists; repeat split |].
  repeat split.
Qed.

Lemma post_init_idempotent_witness :
  DigitalResourceConfig__post_init__ (resolved distance_two 2)
  = Ok (resolved distance_two 2).
Proof.
  apply (post_init_idempotent distance_two (resolved distance_two 2)).
  apply post_init_explicit. reflexivity.
Defined.

Lemma Rpower_exp_form (b e : R) : Rpower b e = exp (e * ln b).
Proof. reflexivity. Qed.


Lemma div_nonneg (x y : R) : 0 <= x -> 0 < y -> 0 <= x / y.
Proof.
  intros Hx Hy. unfold Rdiv.
  apply Rmult_le_pos; [exact Hx | left; now apply Rinv_0_lt_compat].
Qed.

(** The estimator of a configuration that was constructed sits on the
    resolved configuration. *)
Lemma estimate_config (c : DigitalResourceConfig)
  (est : DigitalResourceEstimator) :
  estimate c = Ok est ->
  exists d,
    config est = resolved c d /\
    (code_distance c = Some d \/
     code_distance c = None /\ _calculate_code_distance c = Ok d).
Proof.
  unfold estimate. intros H.
  destruct (DigitalResourceConfig__post_init__ c) as [c' | e] eqn:Hpost;
    [| discriminate].
  cbn [bind] in H. destruct (post_init_resolved c c' Hpost) as (d & -> & Hd).
  destruct (calculate_resources_inv _ est H) as (q & l & _ & _ & _ & ->).
  exists d. split; [reflexivity | exact Hd].
Qed.

(** X10: an estimator built on a derived code distance achieves its
    target: with an error rate of at most half the threshold,
    [0 < p <= 0.005], and a positive target rate, [get_logical_error_rate]
    is a float below a tenth of [target_logical_error_rate]. *)
Theorem derived_distance_meets_target (c : DigitalResourceConfig)
  (est : DigitalResourceEstimator) :
  code_distance c = None ->
  0 < digital_error_rate c <= p_th / 2 ->
  0 < target_logical_error_rate c ->
  estimate c = Ok est ->
  exists r,
    get_logical_error_rate est = Ok (Float r) /\
    0 <= r < target_logical_error_rate c / 10.
Proof.
  intros Hnone Hhalf HL Hest.
  assert (Hp : 0 < digital_error_rate c < p_th)
    by (unfold p_th in *; lra).
  destruct (estimate_config c est Hest) as (d & Hcfg & [Hd | [_ Hd]]);
    [congruence |].
  rewrite (calculate_code_distance_formula c Hp HL) in Hd.
  injection Hd as Hd.
  set (p := digital_error_rate c) in *.
  set (pL := target_logical_error_rate c) in *.
  pose proof (log_ratio_pos p Hp) as Hlog.
  set (L := ln (p_th / p)) in *.
  assert (Hth : 0 < p_th) by (unfold p_th; lra).
  eexists. split.
  { rewrite (logical_error_rate_pos est d);
      [reflexivity | now rewrite Hcfg
      | rewrite Hcfg; cbn [resolved digital_error_rate]; apply Hp]. }
  rewrite Hcfg. cbn [resolved digital_error_rate]. fold p.
  assert (Hln : ln (p / p_th) = - L).
  { unfold L. rewrite <- ln_Rinv by (apply Rdiv_lt_0_compat; lra).
    f_equal. field. split; lra. }
  assert (HlnL : ln (1 / pL) = - ln pL).
  { unfold Rdiv. rewrite Rmult_1_l. now apply ln_Rinv. }
  assert (Hd' : 2 * ln (1 / pL) / L <= IZR d).
  { rewrite <- Hd. unfold code_distance_formula. fold L.
    set (x := 2 * ln (1 / pL) / L).
    pose proof (Zceil_bound x) as [_ Hx].
    pose proof (make_odd_bounds (Zceil x)) as [Hm _].
    pose proof (Z.le_max_l (make_odd (Zceil x)) 3) as Hmax.
    apply IZR_le in Hm. apply IZR_le in Hmax. lra. }
  assert (Hprod : - (2 * ln pL) <= IZR d * L).
  { apply (Rmult_le_compat_r L) in Hd'; [| lra].
    replace (2 * ln (1 / pL) / L * L) with (2 * ln (1 / pL)) in Hd'
      by (field; lra).
    rewrite HlnL in Hd'. lra. }
  rewrite Rpower_exp_form, Hln.
  assert (Hexp : exp ((IZR d + 1) / 2 * - L) < pL).
  { rewrite <- (exp_ln pL HL) at 1. apply exp_increasing. lra. }
  pose proof (exp_pos ((IZR d + 1) / 2 * - L)). lra.
Qed.

Lemma derived_distance_meets_target_witness :
  exists est r,
    estimate scenario_B = Ok est /\
    get_logical_error_rate est = Ok (Float r) /\
    0 <= r < 1 / 10 ^ 10 / 10.
Proof.
  destruct estimate_scenario_B_returns as [est Hest].
  destruct (derived_distance_meets_target scenario_B est eq_refl)
    as (r & Hr & Hb).
  - unfold p_th. simpl. lra.
  - simpl. lra.
  - exact Hest.
  - exists est, r. repeat split; assumption || apply Hb.
Defined.


(** The estimator of scenario B with a supplied non-zero distance. *)
Lemma estimate_explicit_distance (p : R) (d : Z) :
  d <> 0%Z ->
  exists est,
    estimate (explicit_distance p d) = Ok est /\
    config est = resolved (explicit_distance p d) d.
Proof.
  intros Hd. rewrite (estimate_explicit (explicit_distance p d) d eq_refl).
  destruct (calculate_resources_returns
              (resolved (explicit_distance p d) d)
              (2 * d ^ 2) (IZR d * (1 / 10)) eq_refl eq_refl) as [est Hest].
  - assert (IZR d <> 0) by (now apply not_0_IZR). lra.
  - exists est. split; [exact Hest |].
    destruct (calculate_resources_inv _ est Hest)
      as (q & l & _ & _ & _ & ->).
    reflexivity.
Qed.




(** X13: with a positive logical gate time [t] and a [target_runtime]
    between 0 and [2^52 * t], [logical_gate_count] is not negative and
    within one gate of the quotient [target_runtime / t]; and with a code
    distance of at least 1 the physical gate count [n * d^3] is at least
    [n]. *)
Theorem logical_gate_count_fits (c : DigitalResourceConfig)
  (est : DigitalResourceEstimator) (t : R) :
  DigitalResourceEstimator__init__ c = Ok est ->
  logical_gate_time c = Some t ->
  0 < t -> 0 <= target_runtime c -> target_runtime c / t <= 2 ^ 52 ->
  (0 <= logical_gate_count est)%Z /\
  IZR (logical_gate_count est) - 1 < target_runtime c / t
  < IZR (logical_gate_count est) + 1 /\
  (forall d, code_distance c = Some d -> (1 <= d)%Z ->
             exists g, get_physical_gate_count est = Ok g /\
                       g = (logical_gate_count est * d ^ 3)%Z /\
                       (logical_gate_count est <= g)%Z).
Proof.
  intros Hest Ht Hpos Hrun _. unfold DigitalResourceEstimator__init__ in Hest.
  destruct (calculate_resources_inv c est Hest)
    as (q & l & _ & Hl & _ & ->).
  rewrite Ht in Hl. injection Hl as <-.
  unfold logical_gate_count, get_physical_gate_count.
  cbn [_logical_gate_count config].
  assert (Hq : 0 <= target_runtime c / t)
    by (apply div_nonneg; lra).
  rewrite int_of_float_nonneg by exact Hq.
  pose proof (Zfloor_bound (target_runtime c / t)) as [Hlo Hhi].
  set (n := Zfloor (target_runtime c / t)) in *.
  assert (Hn : (0 <= n)%Z) by (apply Zfloor_lub; exact Hq).
  split; [exact Hn |]. split; [lra |].
  intros d Hd Hd1. rewrite Hd. cbn [need bind]. eexists.
  split; [reflexivity |]. split; [reflexivity |].
  assert (H3 : (1 <= d ^ 3)%Z).
  { replace (d ^ 3)%Z with (d * d * d)%Z by ring. nia. }
  nia.
Qed.

Lemma logical_gate_count_fits_witness :
  exists est,
    estimate (explicit_distance (1 / 1000) 3) = Ok est /\
    (0 <= logical_gate_count est)%Z /\
    IZR (logical_gate_count est) - 1 < 1 / 2 / (3 * (1 / 10)).
Proof.
  destruct (estimate_explicit_distance (1 / 1000) 3 ltac:(lia))
    as (est & He & _).
  exists est. split; [exact He |].
  rewrite (estimate_explicit (explicit_distance (1 / 1000) 3) 3 eq_refl)
    in He.
  destruct (logical_gate_count_fits
              (resolved (explicit_distance (1 / 1000) 3) 3) est
              (3 * (1 / 10)) He eq_refl) as (H1 & [H2 _] & _).
  - lra.
  - simpl. lra.
  - simpl. lra.
  - split; [exact H1 | exact H2].
Defined.

(** X14: when [magic_state_overhead_factor] is a whole number [k],
    [compilation_overhead_factor] is 1.5, [qubits_per_logical] is an even
    number [2 m], as it is when derived, and the integers that meet a float
    stay within [2^53] in absolute value, the conversions to [int] lose
    nothing: [magic_state_qubits = t_gate_count * k * qubits_per_logical],
    [compilation_qubits = logical_qubits * m], and the total is their sum
    with the data qubits. *)
Theorem whole_overheads_exact (c : DigitalResourceConfig)
  (est : DigitalResourceEstimator) (k m : Z) :
  DigitalResourceEstimator__init__ c = Ok est ->
  qubits_per_logical c = Some (2 * m)%Z ->
  magic_state_overhead_factor c = IZR k ->
  compilation_overhead_factor c = 15 / 10 ->
  (Z.abs (t_gate_count c) <= 2 ^ 53)%Z ->
  (Z.abs k <= 2 ^ 53)%Z ->
  (Z.abs (2 * m) <= 2 ^ 53)%Z ->
  (Z.abs (t_gate_count c * k) <= 2 ^ 53)%Z ->
  (Z.abs (t_gate_count c * k * (2 * m)) <= 2 ^ 53)%Z ->
  (Z.abs (logical_qubits c * (2 * m)) <= 2 ^ 53)%Z ->
  data_qubits est = (logical_qubits c * (2 * m))%Z /\
  magic_state_qubits est = (t_gate_count c * k * (2 * m))%Z /\
  compilation_qubits est = (logical_qubits c * m)%Z /\
  total_physical_qubits est =
    (m * (3 * logical_qubits c + 2 * k * t_gate_count c))%Z.
Proof.
  intros Hest Hq Hk Hc _ _ _ _ _ _.
  unfold DigitalResourceEstimator__init__ in Hest.
  destruct (calculate_resources_inv c est Hest)
    as (q & l & Hq' & _ & _ & ->).
  assert (Eq : q = (2 * m)%Z) by congruence. subst q.
  unfold data_qubits, magic_state_qubits, compilation_qubits,
    total_physical_qubits.
  cbn [_data_qubits _magic_state_qubits _compilation_qubits
       _total_physical_qubits].
  rewrite Hk, Hc.
  assert (E1 : IZR (t_gate_count c) * IZR k * IZR (2 * m)
               = IZR (t_gate_count c * k * (2 * m)))
    by (now rewrite !mult_IZR).
  assert (E2 : IZR (logical_qubits c * (2 * m)) * (15 / 10 - 1)
               = IZR (logical_qubits c * m))
    by (rewrite !mult_IZR; lra).
  rewrite E1, E2, !int_of_float_IZR.
  repeat split; lia.
Qed.

Lemma whole_overheads_exact_witness :
  exists est,
    estimate scenario_B = Ok est /\
    total_physical_qubits est = (11 ^ 2 * (3 * 1 + 2 * 2 * 100))%Z.
Proof.
  destruct estimate_scenario_B_returns as [est Hest].
  exists est. split; [exact Hest |].
  unfold estimate in Hest. rewrite scenario_B_post_init in Hest.
  cbn [bind] in Hest.
  destruct (whole_overheads_exact (resolved scenario_B 11) est 2 (11 ^ 2)
              Hest eq_refl) as (_ & _ & _ & H);
    try reflexivity; try (simpl; lia).
  exact H.
Defined.

(** X15: with non-negative [logical_qubits], [qubits_per_logical],
    [t_gate_count] and [magic_state_overhead_factor] and a
    [compilation_overhead_factor] of at least 1, no qubit count is negative
    and the overheads only add to the data qubits. *)
Theorem qubit_counts_nonnegative (c : DigitalResourceConfig)
  (est : DigitalResourceEstimator) (q : Z) :
  DigitalResourceEstimator__init__ c = Ok est ->
  qubits_per_logical c = Some q ->
  (0 <= logical_qubits c)%Z -> (0 <= q)%Z -> (0 <= t_gate_count c)%Z ->
  0 <= magic_state_overhead_factor c ->
  1 <= compilation_overhead_factor c ->
  (0 <= data_qubits est)%Z /\
  (0 <= magic_state_qubits est)%Z /\
  (0 <= compilation_qubits est)%Z /\
  (data_qubits est <= total_physical_qubits est)%Z.
Proof.
  intros Hest Hq Hlq Hq0 Ht Hm Hc.
  unfold DigitalResourceEstimator__init__ in Hest.
  destruct (calculate_resources_inv c est Hest)
    as (q' & l & Hq' & _ & _ & ->).
  rewrite Hq in Hq'. injection Hq' as <-.
  unfold data_qubits, magic_state_qubits, compilation_qubits,
    total_physical_qubits.
  cbn [_data_qubits _magic_state_qubits _compilation_qubits
       _total_physical_qubits].
  set (x := IZR (t_gate_count c) * magic_state_overhead_factor c * IZR q).
  set (y := IZR (logical_qubits c * q)
            * (compilation_overhead_factor c - 1)).
  assert (Hx : 0 <= x).
  { unfold x. apply IZR_le in Ht. apply IZR_le in Hq0.
    apply Rmult_le_pos; [apply Rmult_le_pos |]; assumption. }
  assert (Hd : (0 <= logical_qubits c * q)%Z) by nia.
  assert (Hy : 0 <= y).
  { unfold y. apply IZR_le in Hd. apply Rmult_le_pos; lra. }
  rewrite !int_of_float_nonneg by assumption.
  assert (Hfx : (0 <= Zfloor x)%Z) by (now apply Zfloor_lub).
  assert (Hfy : (0 <= Zfloor y)%Z) by (now apply Zfloor_lub).
  repeat split; lia.
Qed.

Lemma qubit_counts_nonnegative_witness :
  exists est,
    estimate fractional_overheads = Ok est /\
    (data_qubits est <= total_physical_qubits est)%Z.
Proof.
  destruct (calculate_resources_returns (resolved fractional_overheads 3)
              18 (3 * (1 / 10)) eq_refl eq_refl ltac:(lra)) as [est Hest].
  exists est. rewrite (estimate_explicit fractional_overheads 3 eq_refl).
  split; [exact Hest |].
  destruct (qubit_counts_nonnegative (resolved fractional_overheads 3)
              est 18 Hest eq_refl) as (_ & _ & _ & H).
  - simpl. lia.
  - lia.
  - simpl. lia.
  - simpl. lra.
  - simpl. lra.
  - exact H.
Defined.






End DigitalExtras.

(** ** Further properties of the comparison *)

Module ReportExtras.
Import report_generator Reference AnalogInputs ExtraInputs.

(** [round] gives a nearest integer. *)
Lemma round_half_even_nearest (x : R) :
  Rabs (x - IZR (round_half_even x)) <= 1 / 2.
Proof.
  unfold round_half_even. pose proof (Zfloor_bound x) as [Hlo Hhi].
  set (f := Zfloor x) in *.
  destruct (Rlt_dec (x - IZR f) (1 / 2)) as [H1 | H1].
  - rewrite Rabs_right; lra.
  - destruct (Rlt_dec (1 / 2) (x - IZR f)) as [H2 | H2].
    + rewrite plus_IZR, Rabs_left; lra.
    + destruct (Z.even f).
      * rewrite Rabs_right; lra.
      * rewrite plus_IZR, Rabs_left; lra.
Qed.

Lemma round_half_even_small (x : R) :
  Rabs x < 1 / 2 -> round_half_even x = 0%Z.
Proof.
  intros Hx. apply Rabs_def2 in Hx as [Hhi Hlo].
  unfold round_half_even. destruct (Rle_dec 0 x) as [Hp | Hn].
  - rewrite (Zfloor_eq 0 x) by (simpl; lra).
    destruct (Rlt_dec (x - 0) (1 / 2)); [reflexivity | lra].
  - rewrite (Zfloor_eq (-1) x) by (simpl; lra).
    destruct (Rlt_dec (x - -1) (1 / 2)); [lra |].
    destruct (Rlt_dec (1 / 2) (x - -1)); [reflexivity | lra].
Qed.

Lemma round_half_even_large (x : R) :
  1 / 2 < Rabs x -> round_half_even x <> 0%Z.
Proof.
  intros Hx. pose proof (round_half_even_nearest x) as Hn.
  intros E. rewrite E in Hn. rewrite Rminus_0_r in Hn. lra.
Qed.

Lemma pow10_pos (n : nat) : 0 < 10 ^ n.
Proof. apply pow_lt. lra. Qed.

Lemma round_to_zero (x : R) : Rabs x < 1 / 200 -> round_to x 2 = 0.
Proof.
  intros Hx. unfold round_to. rewrite round_half_even_small.
  - simpl. lra.
  - rewrite Rabs_mult, (Rabs_right (10 ^ 2)) by (simpl; lra). simpl. lra.
Qed.

Lemma round_to_nonzero (x : R) : 1 / 200 < Rabs x -> round_to x 2 <> 0.
Proof.
  intros Hx. unfold round_to.
  assert (H : round_half_even (x * 10 ^ 2) <> 0%Z).
  { apply round_half_even_large.
    rewrite Rabs_mult, (Rabs_right (10 ^ 2)) by (simpl; lra). simpl. lra. }
  apply not_0_IZR in H. intros E.
  apply Rmult_integral in E as [E | E]; [contradiction |].
  pose proof (Rinv_0_lt_compat _ (pow10_pos 2)). lra.
Qed.

(** What the comparison section computes when both divisors are not
    zero. *)
Lemma comparison_section_value
  (sim : analog_simulator.AnalogSimulator)
  (est : digital_resource_estimator.DigitalResourceEstimator) :
  let width :=
    IZR (analog_simulator.circuit_width (analog_simulator.config sim)) in
  let target :=
    digital_resource_estimator.target_runtime
      (digital_resource_estimator.config est) in
  let feasible := analog_simulator.feasible_runtime sim in
  let total :=
    IZR (digital_resource_estimator.total_physical_qubits est) in
  let volume := digital_resource_estimator.space_time_volume est in
  feasible <> 0 -> width <> 0 ->
  comparison_section sim est =
    Ok {| qubit_count_ratio := round_to (total / width) 2;
          runtime_ratio_digital_to_analog := round_to (target / feasible) 2;
          analog_faster :=
            if Rgt_dec (target / feasible) 1 then true else false;
          analog_qubit_seconds :=
            round_to (width * (feasible / 1000000)) 2;
          digital_qubit_seconds := round_to (volume / 1000000) 2;
          ratio :=
            round_to (volume / 1000000 / (width * (feasible / 1000000)))
              2 |}.
Proof.
  intros width target feasible total volume Hf Hw.
  unfold comparison_section. fold width.
  unfold analog_simulator.feasible_runtime_seconds,
    digital_resource_estimator.space_time_volume_qubit_seconds.
  fold feasible target.
  change (analog_simulator._feasible_runtime sim) with feasible.
  rewrite (truediv_ok target feasible Hf). cbn [bind].
  rewrite truediv_ok by exact Hw. cbn [bind].
  rewrite truediv_ok.
  - reflexivity.
  - apply Rmult_integral_contrapositive_currified; [exact Hw |].
    unfold Rdiv. apply Rmult_integral_contrapositive_currified;
      [exact Hf | lra].
Qed.

(** A comparison that was produced had two non-zero divisors. *)
Lemma comparison_section_inv
  (sim : analog_simulator.AnalogSimulator)
  (est : digital_resource_estimator.DigitalResourceEstimator)
  (c : comparison) :
  comparison_section sim est = Ok c ->
  analog_simulator.feasible_runtime sim <> 0 /\
  IZR (analog_simulator.circuit_width (analog_simulator.config sim)) <> 0.
Proof.
  unfold comparison_section.
  destruct (truediv_cases
              (digital_resource_estimator.target_runtime
                 (digital_resource_estimator.config est))
              (analog_simulator.feasible_runtime sim))
    as [[_ ->] | [Hf ->]]; [discriminate |].
  cbn [bind].
  destruct (truediv_cases
              (IZR (digital_resource_estimator.total_physical_qubits est))
              (IZR (analog_simulator.circuit_width
                      (analog_simulator.config sim))))
    as [[_ ->] | [Hw ->]]; [discriminate |].
  intros _. split; assumption.
Qed.

(** The comparison of a simulator with a non-zero feasible runtime and
    width is produced. *)
Lemma comparison_section_returns
  (sim : analog_simulator.AnalogSimulator)
  (est : digital_resource_estimator.DigitalResourceEstimator) :
  analog_simulator.feasible_runtime sim <> 0 ->
  analog_simulator.circuit_width (analog_simulator.config sim) <> 0%Z ->
  returns (comparison_section sim est).
Proof.
  intros Hf Hw. eexists.
  apply (comparison_section_value sim est Hf). now apply not_0_IZR.
Qed.


(** X19: when the comparison is produced over a positive feasible runtime,
    [analog_faster] is set exactly when the digital [target_runtime] is
    longer than the analog feasible runtime. *)
Theorem analog_faster_verdict
  (sim : analog_simulator.AnalogSimulator)
  (est : digital_resource_estimator.DigitalResourceEstimator)
  (c : comparison) :
  comparison_section sim est = Ok c ->
  0 < analog_simulator.feasible_runtime sim ->
  (analog_faster c = true <->
   analog_simulator.feasible_runtime sim
   < digital_resource_estimator.target_runtime
       (digital_resource_estimator.config est)).
Proof.
  intros Hc Hf.
  destruct (comparison_section_inv sim est c Hc) as [Hnz Hw].
  rewrite (comparison_section_value sim est Hnz Hw) in Hc.
  injection Hc as <-. cbn [analog_faster].
  set (t := digital_resource_estimator.target_runtime _).
  set (f := analog_simulator.feasible_runtime sim) in *.
  assert (Hdiv : t / f > 1 <-> f < t).
  { split; intros H.
    - apply (Rmult_lt_compat_r f) in H; [| exact Hf].
      replace (t / f * f) with t in H by (field; lra). lra.
    - apply (Rmult_lt_reg_r f); [exact Hf |].
      replace (t / f * f) with t by (field; lra). lra. }
  destruct (Rgt_dec (t / f) 1) as [Hgt | Hngt]; split; intros H.
  - now apply Hdiv.
  - reflexivity.
  - discriminate.
  - elim Hngt. now apply Hdiv.
Qed.

(** The simulator of a register of positive T1 times. *)
Lemma register_simulator (ts : list R) :
  all_positive ts -> ts <> [] ->
  exists sim,
    analog_simulator.AnalogSimulator__init__ (register ts) = Ok sim /\
    analog_simulator.config sim = register ts /\
    analog_simulator.feasible_runtime sim = 1 / reciprocal_sum ts.
Proof.
  intros Hpos Hne. eexists. split.
  - apply (AnalogFacts.init_positive (register ts) ts eq_refl Hpos Hne).
  - split; [reflexivity |].
    unfold analog_simulator.feasible_runtime. simpl. ring.
Qed.

(** The estimator of scenario B, with its target runtime of 0.5 us. *)
Lemma scenario_B_estimator :
  exists est,
    estimate DigitalInputs.scenario_B = Ok est /\
    digital_resource_estimator.target_runtime
      (digital_resource_estimator.config est) = 1 / 2.
Proof.
  destruct DigitalFacts.estimate_scenario_B_returns as [est Hest].
  exists est. split; [exact Hest |].
  destruct (DigitalExtras.estimate_config _ est Hest) as (d & -> & _).
  reflexivity.
Qed.

Lemma analog_faster_verdict_witness :
  exists sim est c,
    analog_simulator.AnalogSimulator__init__ (register [100; 100]) = Ok sim /\
    estimate DigitalInputs.scenario_B = Ok est /\
    comparison_section sim est = Ok c /\
    analog_faster c = false.
Proof.
  destruct (register_simulator [100; 100]) as (sim & Hsim & Hcfg & Hf);
    [AnalogFacts.positive_list | discriminate |].
  destruct scenario_B_estimator as (est & Hest & Ht).
  assert (Hf' : analog_simulator.feasible_runtime sim = 50).
  { rewrite Hf. unfold reciprocal_sum. simpl. field. }
  destruct (comparison_section_returns sim est) as [c Hc];
    [rewrite Hf'; lra | rewrite Hcfg; simpl; lia |].
  exists sim, est, c. repeat split; try assumption.
  destruct (analog_faster c) eqn:E; [| reflexivity].
  apply (analog_faster_verdict sim est c Hc) in E; [| rewrite Hf'; lra].
  rewrite Hf', Ht in E. lra.
Defined.

Section TableFacts.

Variables fmt_2f fmt_2e : R -> String.string.

(** X20: the comparison lines of [format_report_table] divide 1 by the
    rounded runtime ratio when the analog side is not faster.  So when the
    digital [target_runtime] is at most 0.004 of the feasible runtime in
    absolute value, the ratio rounds to 0.0 and the table raises
    [ZeroDivisionError], although the comparison itself was produced; from
    0.006 on the twelve lines are returned. *)
Theorem table_needs_nonzero_ratio
  (sim : analog_simulator.AnalogSimulator)
  (est : digital_resource_estimator.DigitalResourceEstimator)
  (c : comparison) :
  comparison_section sim est = Ok c ->
  let r :=
    digital_resource_estimator.target_runtime
      (digital_resource_estimator.config est)
    / analog_simulator.feasible_runtime sim in
  (Rabs r <= 4 / 1000 ->
   comparison_table_lines fmt_2f fmt_2e c = Raise ZeroDivisionError) /\
  (6 / 1000 <= Rabs r ->
   exists lines,
     comparison_table_lines fmt_2f fmt_2e c = Ok lines /\
     length lines = 12%nat).
Proof.
  intros Hc r.
  destruct (comparison_section_inv sim est c Hc) as [Hnz Hw].
  rewrite (comparison_section_value sim est Hnz Hw) in Hc.
  injection Hc as <-. fold r.
  unfold comparison_table_lines.
  cbn [analog_faster runtime_ratio_digital_to_analog].
  split.
  - intros Hsmall.
    assert (Hsmall' : Rabs r < 1 / 200) by lra.
    apply Rabs_def2 in Hsmall' as Hb.
    destruct (Rgt_dec r 1) as [Hgt | _]; [lra |].
    rewrite (round_to_zero r Hsmall'), truediv_zero. reflexivity.
  - intros Hlarge.
    pose proof (round_to_nonzero r ltac:(lra)) as Hround.
    destruct (Rgt_dec r 1) as [_ | _].
    + cbn [bind]. eexists. split; reflexivity.
    + rewrite (truediv_ok 1 _ Hround). cbn [bind].
      eexists. split; reflexivity.
Qed.

End TableFacts.

Lemma table_needs_nonzero_ratio_witness :
  exists sim est c,
    analog_simulator.AnalogSimulator__init__ (register [1000]) = Ok sim /\
    estimate DigitalInputs.scenario_B = Ok est /\
    comparison_section sim est = Ok c /\
    forall fmt_2f fmt_2e,
      comparison_table_lines fmt_2f fmt_2e c = Raise ZeroDivisionError.
Proof.
  destruct (register_simulator [1000]) as (sim & Hsim & Hcfg & Hf);
    [AnalogFacts.positive_list | discriminate |].
  destruct scenario_B_estimator as (est & Hest & Ht).
  assert (Hf' : analog_simulator.feasible_runtime sim = 1000).
  { rewrite Hf. unfold reciprocal_sum. simpl. field. }
  destruct (comparison_section_returns sim est) as [c Hc];
    [rewrite Hf'; lra | rewrite Hcfg; simpl; lia |].
  exists sim, est, c. repeat split; try assumption.
  intros fmt_2f fmt_2e.
  apply (table_needs_nonzero_ratio fmt_2f fmt_2e sim est c Hc).
  rewrite Hf', Ht. rewrite Rabs_right; lra.
Defined.

End ReportExtras.
